(** * homebridge-wiz-helper: the device communication core

    A shallow embedding of the TypeScript sources of the plugin:

    - [Light]        the accessory with the request coalescer
                     (the [HomebridgeWizLight] class that owns [pendingRequest]
                     and [callbacks]);
    - [LegacyLight]  [src/platformAccessory.ts], the accessory without the
                     coalescer;
    - [Discovery]    [getWizDevice], the same promise in the three platform
                     files, over the [makeWizDevice] of each file
                     ([Platform], [TestClass], [HardcodedPlatform]).

    Node's event loop runs one handler at a time and to completion, so an
    object is a record, a handler is a function from state to state, and the
    loop is a list of events folded over the state.  What a handler does to
    the outside world (a datagram sent, a callback applied, a socket closed,
    an exception nobody catches) is appended to a trace.

    Numbers.  The protocol carries integers (Kelvin, mired, dimming), so a
    JavaScript number is an integer or [NaN]; the temperature mapper computes
    its intermediate values in exact rationals.  The argument of
    [Math.round] is never closer than 1/190 to a tie at an integer input
    ([calvinToTemp_off_tie], [tempToCalvin_off_tie]), which is far more than
    the rounding error of the double arithmetic, so the exact value and the
    double round to the same integer. *)

From Stdlib Require Import ZArith QArith Qround Qabs Lia String.
From stdpp Require Import base list.

Set Default Proof Using "Type".
Local Open Scope Z_scope.

(** ** JavaScript values *)

Module JS.

(** A number: an integer, or [NaN]. *)
Inductive number : Type :=
| NaN
| Num (z : Z).

Definition isNaN (n : number) : bool :=
  match n with NaN => true | Num _ => false end.

(** [Math.round]: the integer nearest to [x], a tie going up. *)
Definition Math_round (x : Q) : Z := Qfloor (x + (1 # 2)).

(** Truthiness of an optional numeric field: [undefined] and [0] are
    falsy. *)
Definition truthy (field : option Z) : bool :=
  match field with
  | None => false
  | Some z => negb (z =? 0)
  end.

(** [field ?? fallback]. *)
Definition nullish (field : option Z) (fallback : Z) : Z :=
  match field with
  | None => fallback
  | Some z => z
  end.

(** [parseInt] of an optional numeric field: [parseInt(undefined)] is
    [NaN]; an integer (of magnitude below 10^21, printed without an
    exponent) is read back as itself. *)
Definition parseInt (field : option Z) : number :=
  match field with
  | None => NaN
  | Some z => Num z
  end.

End JS.

(** ** The wire protocol *)

Module Pilot.

(** [IWizPilotResponse.result]. *)
Record Result : Type := {
  mac : string;
  rssi : Z;
  src : string;
  state : bool;
  sceneId : option Z;
  temp : option Z;
  dimming : option Z
}.

Record IWizPilotResponse : Type := {
  method : string;
  env : string;
  result : Result
}.

(** A datagram is text that [JSON.parse] rejects, or the text of a reply
    object. *)
Inductive datagram : Type :=
| NotJson (raw : string)
| Json (reply : IWizPilotResponse).

(** [JSON.parse(message.toString())]; [None] is the [SyntaxError]. *)
Definition JSON_parse (message : datagram) : option IWizPilotResponse :=
  match message with
  | NotJson _ => None
  | Json reply => Some reply
  end.

End Pilot.

Module Device.

Inductive DeviceType : Type := WHITE_LIGHT | RGB_LIGHT | SWITCH.

Record IWizDevice : Type := {
  ip : string;
  type : DeviceType;
  mac : string;
  rssi : Z;
  src : string;
  state : bool;
  sceneId : option Z;
  temp : option Z;
  dimming : option Z
}.

End Device.

(** ** The accessory with the request coalescer *)

Module Light.
Import JS Pilot.

(** *** The temperature mapper

    Calvin = 2700, 6500; Temp = 140, 500. *)

Definition tempToCalvin (temp : number) : number :=
  match temp with
  | NaN => NaN
  | Num temp =>
      let total := (500 - 140)%Q in
      let current := (inject_Z temp - 140)%Q in
      let p := (1 - current / total)%Q in
      Num (Math_round (2700 + (6500 - 2700) * p)%Q)
  end.

Definition calvinToTemp (calvin : number) : number :=
  match calvin with
  | NaN => NaN
  | Num calvin =>
      let total := (6500 - 2700)%Q in
      let current := (inject_Z calvin - 2700)%Q in
      let p := (1 - current / total)%Q in
      Num (Math_round (140 + (500 - 140) * p)%Q)
  end.

(** *** Callbacks, sockets and the trace *)

(** HomeKit's callback of one get or set request, by number. *)
Definition hk : Type := nat.
Bind Scope nat_scope with hk.

(** The arrow functions the six handlers hand to [getPilot] and [request]:
    each closes over HomeKit's callback, [setOn]'s over the value too. *)
Inductive callback : Type :=
| getOn_cb (k : hk)
| getBrightness_cb (k : hk)
| getTemperature_cb (k : hk)
| setOn_cb (value : bool) (k : hk)
| setBrightness_cb (k : hk)
| setTemperature_cb (k : hk).

(** What HomeKit's callback receives after the [null] error. *)
Inductive value : Type :=
| VBool (b : bool)
| VNum (n : number).

(** The [params] object of a request. *)
Inductive params : Type :=
| NoParams
| StateParam (state : bool)
| DimmingParam (dimming : Z)
| TempParam (temp : number).

Inductive error : Type :=
| SyntaxError
| SendError
| ERR_SOCKET_DGRAM_NOT_RUNNING.

Inductive effect : Type :=
| Sent (socket : nat) (method : string) (p : params)
| Invoked (cb : callback) (response : IWizPilotResponse)
| Delivered (k : hk) (v : option value)
| Closed (socket : nat)
| Uncaught (e : error).

Record CurrentState : Type := {
  On : bool;
  Brightness : Z;
  Temperature : number
}.

(** One [udp.createSocket] of [request], with what its handlers close over.
    [sk_answered] records that its message handler has run;
    [sk_close_timers] counts the armed [setTimeout(() => client.close(), 0)]. *)
Record socket : Type := {
  sk_method : string;
  sk_callback : option callback;
  sk_open : bool;
  sk_answered : bool;
  sk_close_timers : nat
}.

Record light : Type := {
  currentState : CurrentState;
  pendingRequest : bool;
  callbacks : list callback;
  sockets : list socket;
  trace : list effect
}.

Definition init : light := {|
  currentState := {| On := false; Brightness := 100; Temperature := Num 140 |};
  pendingRequest := false;
  callbacks := [];
  sockets := [];
  trace := []
|}.

Definition set_currentState (cs : CurrentState) (st : light) : light :=
  {| currentState := cs; pendingRequest := pendingRequest st;
     callbacks := callbacks st; sockets := sockets st; trace := trace st |}.

Definition set_pendingRequest (b : bool) (st : light) : light :=
  {| currentState := currentState st; pendingRequest := b;
     callbacks := callbacks st; sockets := sockets st; trace := trace st |}.

Definition set_callbacks (cbs : list callback) (st : light) : light :=
  {| currentState := currentState st; pendingRequest := pendingRequest st;
     callbacks := cbs; sockets := sockets st; trace := trace st |}.

Definition set_sockets (sks : list socket) (st : light) : light :=
  {| currentState := currentState st; pendingRequest := pendingRequest st;
     callbacks := callbacks st; sockets := sks; trace := trace st |}.

Definition emit (e : effect) (st : light) : light :=
  {| currentState := currentState st; pendingRequest := pendingRequest st;
     callbacks := callbacks st; sockets := sockets st;
     trace := trace st ++ [e] |}.

(** *** The callbacks' bodies *)

(** [callback(response)]: the body of each arrow function.  The set
    callbacks take no argument and ignore the reply. *)
Definition invoke (cb : callback) (response : IWizPilotResponse) (st : light)
  : light :=
  let st := emit (Invoked cb response) st in
  let cs := currentState st in
  match cb with
  | getOn_cb k =>
      let st := set_currentState
                  {| On := state (result response);
                     Brightness := Brightness cs;
                     Temperature := Temperature cs |} st in
      emit (Delivered k (Some (VBool (state (result response))))) st
  | getBrightness_cb k =>
      let result := nullish (dimming (result response)) 0 in
      let st := set_currentState
                  {| On := On cs;
                     Brightness := result;
                     Temperature := Temperature cs |} st in
      emit (Delivered k (Some (VNum (Num result)))) st
  | getTemperature_cb k =>
      let temp := calvinToTemp (parseInt (temp (result response))) in
      let temp := if isNaN temp then Num 500 else temp in
      let st := set_currentState
                  {| On := On cs;
                     Brightness := Brightness cs;
                     Temperature := temp |} st in
      emit (Delivered k (Some (VNum (Temperature (currentState st))))) st
  | setOn_cb value k =>
      let st := set_currentState
                  {| On := value;
                     Brightness := Brightness cs;
                     Temperature := Temperature cs |} st in
      emit (Delivered k None) st
  | setBrightness_cb k => emit (Delivered k None) st
  | setTemperature_cb k => emit (Delivered k None) st
  end.

(** [this.callbacks.forEach((callback) => callback(JSON.parse(...)))]. *)
Definition forEach (cbs : list callback) (response : IWizPilotResponse)
  (st : light) : light :=
  fold_left (fun st cb => invoke cb response st) cbs st.

(** *** [request] and [getPilot] *)

(** [udp.createSocket('udp4')] with the handlers [request] attaches: the
    message handler closes over [method]'s request and its [callback]. *)
Definition createSocket (method : string) (callback : option callback)
  : socket :=
  {| sk_method := method; sk_callback := callback;
     sk_open := true; sk_answered := false; sk_close_timers := 0 |}.

(** [request(method, params, callback?)] up to its return: the flag, the
    socket with its handlers, the datagram handed to [client.send].  The
    socket is known by its position in [sockets]. *)
Definition request (method : string) (p : params) (callback : option callback)
  (st : light) : light :=
  let st := set_pendingRequest true st in
  let client := length (sockets st) in
  let st := set_sockets (sockets st ++ [createSocket method callback]) st in
  emit (Sent client method p) st.

Definition getPilot (callback : callback) (st : light) : light :=
  let st := set_callbacks (callbacks st ++ [callback]) st in
  if negb (pendingRequest st) then request "getPilot" NoParams None st
  else st.

(** [client.close()]: closing a socket that is not running throws. *)
Definition close (client : nat) (st : light) : light :=
  match sockets st !! client with
  | None => st
  | Some sk =>
      if sk_open sk then
        emit (Closed client)
          (set_sockets
             (<[client := {| sk_method := sk_method sk;
                             sk_callback := sk_callback sk;
                             sk_open := false;
                             sk_answered := sk_answered sk;
                             sk_close_timers := sk_close_timers sk |}]>
                (sockets st)) st)
      else emit (Uncaught ERR_SOCKET_DGRAM_NOT_RUNNING) st
  end.

(** The ['message'] handler of the socket [client].  A closed socket emits
    no message.  [JSON.parse] is first evaluated as the argument of
    [log.debug], outside any [try]: on text that is not JSON the handler
    ends there, after the flag was cleared. *)
Definition on_message (client : nat) (message : datagram) (st : light)
  : light :=
  match sockets st !! client with
  | None => st
  | Some sk =>
      if negb (sk_open sk) then st else
      let st := set_sockets
                  (<[client := {| sk_method := sk_method sk;
                                  sk_callback := sk_callback sk;
                                  sk_open := true;
                                  sk_answered := true;
                                  sk_close_timers := sk_close_timers sk |}]>
                     (sockets st)) st in
      let st := set_pendingRequest false st in
      match JSON_parse message with
      | None => emit (Uncaught SyntaxError) st
      | Some response =>
          let st :=
            match sk_callback sk with
            | Some callback => invoke callback response st
            | None => set_callbacks [] (forEach (callbacks st) response st)
            end in
          set_sockets
            (<[client := {| sk_method := sk_method sk;
                            sk_callback := sk_callback sk;
                            sk_open := true;
                            sk_answered := true;
                            sk_close_timers := S (sk_close_timers sk) |}]>
               (sockets st)) st
      end
  end.

(** The callback of [client.send]: the flag is cleared when the send
    completes; on an error the socket is closed and the error rethrown. *)
Definition on_send (client : nat) (error : bool) (st : light) : light :=
  match sockets st !! client with
  | None => st
  | Some sk =>
      let st := set_pendingRequest false st in
      if error then
        if sk_open sk then emit (Uncaught SendError) (close client st)
        else close client st
      else st
  end.

(** One armed [setTimeout(() => client.close(), 0)] fires. *)
Definition on_close_timer (client : nat) (st : light) : light :=
  match sockets st !! client with
  | None => st
  | Some sk =>
      match sk_close_timers sk with
      | O => st
      | S n =>
          close client
            (set_sockets
               (<[client := {| sk_method := sk_method sk;
                               sk_callback := sk_callback sk;
                               sk_open := sk_open sk;
                               sk_answered := sk_answered sk;
                               sk_close_timers := n |}]>
                  (sockets st)) st)
      end
  end.

(** *** The six characteristic handlers *)

Definition setOn (value : bool) (k : hk) (st : light) : light :=
  request "setPilot" (StateParam value) (Some (setOn_cb value k)) st.

Definition getOn (k : hk) (st : light) : light :=
  getPilot (getOn_cb k) st.

Definition setBrightness (value : Z) (k : hk) (st : light) : light :=
  let cs := currentState st in
  let st := set_currentState
              {| On := On cs; Brightness := value;
                 Temperature := Temperature cs |} st in
  request "setPilot" (DimmingParam (Brightness (currentState st)))
    (Some (setBrightness_cb k)) st.

Definition getBrightness (k : hk) (st : light) : light :=
  getPilot (getBrightness_cb k) st.

Definition setTemperature (value : Z) (k : hk) (st : light) : light :=
  let cs := currentState st in
  let st := set_currentState
              {| On := On cs; Brightness := Brightness cs;
                 Temperature := Num value |} st in
  request "setPilot"
    (TempParam (tempToCalvin (Temperature (currentState st))))
    (Some (setTemperature_cb k)) st.

Definition getTemperature (k : hk) (st : light) : light :=
  getPilot (getTemperature_cb k) st.

(** *** The event loop *)

Inductive event : Type :=
| Call_setOn (value : bool) (k : hk)
| Call_getOn (k : hk)
| Call_setBrightness (value : Z) (k : hk)
| Call_getBrightness (k : hk)
| Call_setTemperature (value : Z) (k : hk)
| Call_getTemperature (k : hk)
| Call_getPilot (cb : callback)
| SendDone (client : nat) (error : bool)
| Message (client : nat) (message : datagram)
| CloseTimer (client : nat).

Definition step (st : light) (e : event) : light :=
  match e with
  | Call_setOn value k => setOn value k st
  | Call_getOn k => getOn k st
  | Call_setBrightness value k => setBrightness value k st
  | Call_getBrightness k => getBrightness k st
  | Call_setTemperature value k => setTemperature value k st
  | Call_getTemperature k => getTemperature k st
  | Call_getPilot cb => getPilot cb st
  | SendDone client error => on_send client error st
  | Message client message => on_message client message st
  | CloseTimer client => on_close_timer client st
  end.

Definition run (es : list event) (st : light) : light :=
  fold_left step es st.

(** *** Reading a trace *)

Definition datagrams (t : list effect) : list (nat * string * params) :=
  omap (fun e => match e with
                 | Sent client method p => Some (client, method, p)
                 | _ => None
                 end) t.

Definition invocations (t : list effect)
  : list (callback * IWizPilotResponse) :=
  omap (fun e => match e with
                 | Invoked cb response => Some (cb, response)
                 | _ => None
                 end) t.

Definition deliveries (t : list effect) : list (hk * option value) :=
  omap (fun e => match e with
                 | Delivered k v => Some (k, v)
                 | _ => None
                 end) t.

Definition uncaught (t : list effect) : list error :=
  omap (fun e => match e with
                 | Uncaught err => Some err
                 | _ => None
                 end) t.

(** A [getPilot] exchange is outstanding while its socket is open and its
    message handler has not run. *)
Definition outstanding (sk : socket) : bool :=
  (sk_method sk =? "getPilot")%string && sk_open sk && negb (sk_answered sk).

Definition outstanding_getPilot (st : light) : nat :=
  length (filter (fun sk => outstanding sk = true) (sockets st)).

Definition is_message (e : event) : bool :=
  match e with Message _ _ => true | _ => false end.

(** The event is a reply that parses, on an open socket that [getPilot]
    created: the one event that empties the queue. *)
Definition drains (st : light) (e : event) : bool :=
  match e with
  | Message client message =>
      match sockets st !! client, JSON_parse message with
      | Some sk, Some _ =>
          sk_open sk && match sk_callback sk with None => true | _ => false end
      | _, _ => false
      end
  | _ => false
  end.

Fixpoint no_drain (es : list event) (st : light) : bool :=
  match es with
  | [] => true
  | e :: es => negb (drains st e) && no_drain es (step st e)
  end.

(** What one callback adds to the trace on a reply: itself, then what it
    hands to HomeKit's callback. *)
Definition delivery (cb : callback) (response : IWizPilotResponse)
  : hk * option value :=
  match cb with
  | getOn_cb k => (k, Some (VBool (state (result response))))
  | getBrightness_cb k =>
      (k, Some (VNum (Num (nullish (dimming (result response)) 0))))
  | getTemperature_cb k =>
      let temp := calvinToTemp (parseInt (temp (result response))) in
      (k, Some (VNum (if isNaN temp then Num 500 else temp)))
  | setOn_cb _ k => (k, None)
  | setBrightness_cb k => (k, None)
  | setTemperature_cb k => (k, None)
  end.

Definition invoke_effects (response : IWizPilotResponse) (cb : callback)
  : list effect :=
  [Invoked cb response;
   Delivered (fst (delivery cb response)) (snd (delivery cb response))].

(** Effects that reach no callback. *)
Definition silent (l : list effect) : Prop :=
  invocations l = [] /\ deliveries l = [].

(** The callback a set handler hands to [request]. *)
Definition set_callback_of (e : event) : option callback :=
  match e with
  | Call_setOn value k => Some (setOn_cb value k)
  | Call_setBrightness _ k => Some (setBrightness_cb k)
  | Call_setTemperature _ k => Some (setTemperature_cb k)
  | _ => None
  end.

(** No datagram arrives and no send fails. *)
Definition quiet (e : event) : bool :=
  match e with
  | Message _ _ => false
  | SendDone _ error => negb error
  | _ => true
  end.

End Light.

(** ** The accessory without the coalescer ([src/platformAccessory.ts]) *)

Module LegacyLight.
Import JS Pilot.

Definition tempToCalvin (temp : number) : number :=
  match temp with
  | NaN => NaN
  | Num temp =>
      let total := (500 - 140)%Q in
      let current := (inject_Z temp - 140)%Q in
      let p := (1 - current / total)%Q in
      Num (Math_round (2700 + (6500 - 2700) * p)%Q)
  end.

(** Here [p] is [current / total], not its complement. *)
Definition calvinToTemp (calvin : number) : number :=
  match calvin with
  | NaN => NaN
  | Num calvin =>
      let total := (6500 - 2700)%Q in
      let current := (inject_Z calvin - 2700)%Q in
      let p := (current / total)%Q in
      Num (Math_round (140 + (500 - 140) * p)%Q)
  end.

Record CurrentState : Type := {
  On : bool;
  Brightness : Z;
  Temperature : number
}.

(** The arrow function [getTemperature] hands to [request], applied to the
    parsed reply: the new [currentState], and the value HomeKit's callback
    receives after the [null] error. *)
Definition getTemperature_cb (response : IWizPilotResponse)
  (cs : CurrentState) : CurrentState * number :=
  let cs := {| On := On cs; Brightness := Brightness cs;
               Temperature :=
                 calvinToTemp (parseInt (temp (result response))) |} in
  (cs, Temperature cs).

End LegacyLight.

(** ** Discovery: [getWizDevice] *)

Module Discovery.
Import Pilot.

(** The promise of one [getWizDevice(ip)] call and the socket its handlers
    close over.  [resolved] is [Some None] once the promise holds [null],
    [Some (Some d)] once it holds a device; [timer] is the armed timeout,
    in milliseconds, [None] once it has fired; [uncaught] counts the
    exceptions thrown by [client.close()] outside a [try]. *)
Record lookup : Type := {
  resolved : option (option Device.IWizDevice);
  client_open : bool;
  close_timers : nat;
  timer : option Z;
  uncaught : nat
}.

Inductive event : Type :=
| Message (message : datagram)
| SendDone (error : bool)
| CloseTimer
| Timeout.

(** [resolve(v)]: a promise keeps its first value. *)
Definition resolve (v : option Device.IWizDevice) (st : lookup) : lookup :=
  match resolved st with
  | Some _ => st
  | None => {| resolved := Some v; client_open := client_open st;
               close_timers := close_timers st; timer := timer st;
               uncaught := uncaught st |}
  end.

(** [client.close()] outside a [try]: closing a socket that is not running
    throws. *)
Definition close (st : lookup) : lookup :=
  {| resolved := resolved st; client_open := false;
     close_timers := close_timers st; timer := timer st;
     uncaught := if client_open st then uncaught st else S (uncaught st) |}.

(** [try { client.close(); } catch (e) { }]. *)
Definition try_close (st : lookup) : lookup :=
  {| resolved := resolved st; client_open := false;
     close_timers := close_timers st; timer := timer st;
     uncaught := uncaught st |}.

(** [setTimeout(() => client.close(), 0)]. *)
Definition arm_close_timer (st : lookup) : lookup :=
  {| resolved := resolved st; client_open := client_open st;
     close_timers := S (close_timers st); timer := timer st;
     uncaught := uncaught st |}.

Section GetWizDevice.

Variable makeWizDevice : string -> IWizPilotResponse -> Device.IWizDevice.
Variable timeout_ms : Z.
Variable ip : string.

(** The state when [getWizDevice(ip)] returns its promise: socket open,
    datagram handed to [client.send], timeout armed. *)
Definition getWizDevice : lookup :=
  {| resolved := None; client_open := true; close_timers := 0%nat;
     timer := Some timeout_ms; uncaught := 0%nat |}.

(** The ['message'] handler; a closed socket emits no message. *)
Definition on_message (message : datagram) (st : lookup) : lookup :=
  if negb (client_open st) then st else
  let st :=
    match JSON_parse message with
    | Some deviceInfo =>
        if (method deviceInfo =? "getPilot")%string
        then resolve (Some (makeWizDevice ip deviceInfo)) st
        else resolve None st
    | None => resolve None st
    end in
  arm_close_timer st.

(** The callback of [client.send]. *)
Definition on_send (error : bool) (st : lookup) : lookup :=
  if error then
    if client_open st then resolve None (close st) else close st
  else st.

(** One armed [setTimeout(() => client.close(), 0)] fires. *)
Definition on_close_timer (st : lookup) : lookup :=
  match close_timers st with
  | O => st
  | S n =>
      close {| resolved := resolved st; client_open := client_open st;
               close_timers := n; timer := timer st;
               uncaught := uncaught st |}
  end.

(** The timeout fires, once. *)
Definition on_timeout (st : lookup) : lookup :=
  match timer st with
  | None => st
  | Some _ =>
      resolve None
        (try_close {| resolved := resolved st; client_open := client_open st;
                      close_timers := close_timers st; timer := None;
                      uncaught := uncaught st |})
  end.

Definition step (st : lookup) (e : event) : lookup :=
  match e with
  | Message message => on_message message st
  | SendDone error => on_send error st
  | CloseTimer => on_close_timer st
  | Timeout => on_timeout st
  end.

Definition run (es : list event) (st : lookup) : lookup :=
  fold_left step es st.

End GetWizDevice.

(** The promise holds a value and the socket is released. *)
Definition settled (st : lookup) : Prop :=
  client_open st = false /\ is_Some (resolved st).

(** What a promise holds after [resolve(null)]. *)
Definition or_null (r : option (option Device.IWizDevice))
  : option Device.IWizDevice :=
  match r with
  | Some v => v
  | None => None
  end.

(** A reply the handler turns down: not JSON, or of another method. *)
Definition rejected (message : datagram) : bool :=
  match JSON_parse message with
  | None => true
  | Some deviceInfo => negb (method deviceInfo =? "getPilot")%string
  end.

End Discovery.

(** ** [src/platform.ts] *)

Module Platform.
Import JS Pilot.

Definition makeWizDevice (ip : string) (info : IWizPilotResponse)
  : Device.IWizDevice :=
  let type :=
    if negb (truthy (dimming (result info))) then Device.SWITCH
    else if truthy (temp (result info)) then Device.WHITE_LIGHT
    else Device.RGB_LIGHT in
  let device (dimming temp : option Z) :=
    {| Device.ip := ip;
       Device.type := type;
       Device.mac := mac (result info);
       Device.state := state (result info);
       Device.rssi := rssi (result info);
       Device.src := src (result info);
       Device.sceneId := sceneId (result info);
       Device.temp := temp;
       Device.dimming := dimming |} in
  match type with
  | Device.SWITCH => device None None
  | Device.WHITE_LIGHT =>
      device (dimming (result info)) (temp (result info))
  | Device.RGB_LIGHT => device None None
  end.

(** The timeout of [getWizDevice], in milliseconds. *)
Definition timeout_ms : Z := 1000.

Definition getWizDevice (ip : string) : Discovery.lookup :=
  Discovery.getWizDevice timeout_ms.

Definition run (ip : string) : list Discovery.event -> Discovery.lookup ->
  Discovery.lookup :=
  Discovery.run makeWizDevice ip.

End Platform.

(** ** The stand-alone [TestClass] *)

Module TestClass.
Import JS Pilot.

Definition makeWizDevice (ip : string) (info : IWizPilotResponse)
  : Device.IWizDevice :=
  let type :=
    if negb (truthy (dimming (result info))) then Device.SWITCH
    else if truthy (temp (result info)) then Device.WHITE_LIGHT
    else Device.RGB_LIGHT in
  let device (dimming temp : option Z) :=
    {| Device.ip := ip;
       Device.type := type;
       Device.mac := mac (result info);
       Device.state := state (result info);
       Device.rssi := rssi (result info);
       Device.src := src (result info);
       Device.sceneId := sceneId (result info);
       Device.temp := temp;
       Device.dimming := dimming |} in
  match type with
  | Device.SWITCH => device None None
  | Device.WHITE_LIGHT =>
      device (dimming (result info)) (temp (result info))
  | Device.RGB_LIGHT => device None None
  end.

Definition timeout_ms : Z := 500.

Definition getWizDevice (ip : string) : Discovery.lookup :=
  Discovery.getWizDevice timeout_ms.

Definition run (ip : string) : list Discovery.event -> Discovery.lookup ->
  Discovery.lookup :=
  Discovery.run makeWizDevice ip.

End TestClass.

(** ** The platform over the hard-coded device list

    Its [makeWizDevice] keeps the heuristic in a comment ("Detecting wont
    work, if the light is off, the system doesnt get dimming or temp") and
    makes every device a white light. *)

Module HardcodedPlatform.
Import JS Pilot.

Definition makeWizDevice (ip : string) (info : IWizPilotResponse)
  : Device.IWizDevice :=
  let type := Device.WHITE_LIGHT in
  {| Device.ip := ip;
     Device.type := type;
     Device.mac := mac (result info);
     Device.state := state (result info);
     Device.rssi := rssi (result info);
     Device.src := src (result info);
     Device.sceneId := sceneId (result info);
     Device.dimming := Some (nullish (dimming (result info)) 0);
     Device.temp := Some (nullish (temp (result info)) 2700) |}.

Definition timeout_ms : Z := 5000.

Definition getWizDevice (ip : string) : Discovery.lookup :=
  Discovery.getWizDevice timeout_ms.

Definition run (ip : string) : list Discovery.event -> Discovery.lookup ->
  Discovery.lookup :=
  Discovery.run makeWizDevice ip.

End HardcodedPlatform.

(** ** Sample replies *)

Module Samples.
Import Pilot.

Definition bulb (method : string) (temp dimming : option Z)
  : IWizPilotResponse :=
  {| method := method; env := "pro";
     result := {| mac := "a8bb506e798a"; rssi := -61; src := "";
                  state := true; sceneId := Some 0;
                  temp := temp; dimming := dimming |} |}.

(** [{dimming: 50, temp: 2700}], [{dimming: 80}] and [{}]. *)
Definition white : IWizPilotResponse := bulb "getPilot" (Some 2700) (Some 50).
Definition colour : IWizPilotResponse := bulb "getPilot" None (Some 80).
Definition plug : IWizPilotResponse := bulb "getPilot" None None.

(** The acknowledgement of a [setPilot]. *)
Definition ack : IWizPilotResponse := bulb "setPilot" None None.

End Samples.

(** ** Tolerances *)

(** [n] is a number within [tol] of the integer [z]. *)
Definition within (tol : Z) (n : JS.number) (z : Z) : Prop :=
  match n with
  | JS.NaN => False
  | JS.Num m => Z.abs (m - z) <= tol
  end.


(** ** Ranges and order of numbers *)

(** [n] is a number between [lo] and [hi]. *)
Definition in_range (lo hi : Z) (n : JS.number) : Prop :=
  match n with
  | JS.NaN => False
  | JS.Num z => lo <= z <= hi
  end.

(** [m <= n], both numbers. *)
Definition num_le (m n : JS.number) : Prop :=
  match m, n with
  | JS.Num a, JS.Num b => a <= b
  | _, _ => False
  end.

(** ** Reading the events of the accessory *)

Module LightEvents.
Import Light.

(** The callback an event hands to [getPilot]. *)
Definition queued_by (e : event) : option callback :=
  match e with
  | Call_getOn k => Some (getOn_cb k)
  | Call_getBrightness k => Some (getBrightness_cb k)
  | Call_getTemperature k => Some (getTemperature_cb k)
  | Call_getPilot cb => Some cb
  | _ => None
  end.

(** The [params] a set handler hands to [request]. *)
Definition set_params_of (e : event) : option params :=
  match e with
  | Call_setOn value _ => Some (StateParam value)
  | Call_setBrightness value _ => Some (DimmingParam value)
  | Call_setTemperature value _ =>
      Some (TempParam (tempToCalvin (JS.Num value)))
  | _ => None
  end.

(** Every socket was created by [getPilot]: none has a callback of its
    own. *)
Definition queue_only (st : light) : Prop :=
  Forall (fun sk => sk_callback sk = None) (sockets st).

End LightEvents.

(** ** Reading the events of a discovery call *)

Module DiscoveryEvents.
Import Discovery.

Definition is_message (e : event) : bool :=
  match e with Message _ => true | _ => false end.

(** The send completed without an error. *)
Definition send_completed (e : event) : bool :=
  match e with SendDone false => true | _ => false end.

(** The timeout fires, or the send fails. *)
Definition gives_up (e : event) : bool :=
  match e with
  | Timeout => true
  | SendDone true => true
  | _ => false
  end.

End DiscoveryEvents.

(** ** The candidates of a scan and Homebridge's accessory API *)

Module LocalDevices.

(** [IDevice] of [local-devices]. *)
Record IDevice : Type := {
  name : string;
  ip : string;
  mac : string
}.

End LocalDevices.

Module Homebridge.

(** A [PlatformAccessory], as far as the platform reads and writes it;
    [context_device] is [accessory.context.device]. *)
Record PlatformAccessory : Type := {
  displayName : string;
  UUID : string;
  context_device : Device.IWizDevice
}.

(** What the platform does to the outside world: the console, the log, a
    new accessory handler, and the three calls of the API, the last two
    with the plugin's and the platform's name. *)
Inductive call : Type :=
| console_error (message : string)
| console_log_lights (lights : list Device.IWizDevice)
| log_debug_lights (lights : list Device.IWizDevice)
| log_info (message : string) (arg : string)
| new_HomebridgeWizLight (accessory : PlatformAccessory)
| updatePlatformAccessories (accessories : list PlatformAccessory)
| registerPlatformAccessories (pluginName platformName : string)
    (accessories : list PlatformAccessory)
| unregisterPlatformAccessories (pluginName platformName : string)
    (accessories : list PlatformAccessory).

(** The accessories the calls hand to a new handler, update, register and
    unregister. *)
Definition handlers (calls : list call) : list PlatformAccessory :=
  omap (fun c => match c with
                 | new_HomebridgeWizLight accessory => Some accessory
                 | _ => None
                 end) calls.

Definition updated (calls : list call) : list PlatformAccessory :=
  concat (omap (fun c => match c with
                         | updatePlatformAccessories accessories =>
                             Some accessories
                         | _ => None
                         end) calls).

Definition registered (calls : list call) : list PlatformAccessory :=
  concat (omap (fun c => match c with
                         | registerPlatformAccessories _ _ accessories =>
                             Some accessories
                         | _ => None
                         end) calls).

Definition unregistered (calls : list call) : list PlatformAccessory :=
  concat (omap (fun c => match c with
                         | unregisterPlatformAccessories _ _ accessories =>
                             Some accessories
                         | _ => None
                         end) calls).

End Homebridge.

(** ** Scanning the candidates *)

Module Scan.
Import Discovery LocalDevices.

Section Scan.

Variable makeWizDevice :
  string -> Pilot.IWizPilotResponse -> Device.IWizDevice.
Variable timeout_ms : Z.

(** What call number [i] of the scan sees on its socket. *)
Variable events : nat -> list event.

(** The promise of call number [i], for the candidate [device]: [None]
    while it is pending. *)
Definition promise (i : nat) (device : IDevice)
  : option (option Device.IWizDevice) :=
  resolved (Discovery.run makeWizDevice (ip device) (events i)
              (getWizDevice timeout_ms)).

(** [for (const device of devices) { const wizDevice = await
    this.getWizDevice(device.ip); if (wizDevice) { lights.push(wizDevice); } }]
    from call number [i] on; [None] when an [await] never returns. *)
Fixpoint await_each (devices : list IDevice) (i : nat)
  (lights : list Device.IWizDevice) : option (list Device.IWizDevice) :=
  match devices with
  | [] => Some lights
  | device :: devices =>
      match promise i device with
      | None => None
      | Some wizDevice =>
          await_each devices (S i)
            match wizDevice with
            | Some light => lights ++ [light]
            | None => lights
            end
      end
  end.

(** [for (const device of altDevices) { promises.push(this.getWizDevice(device.ip)); }] *)
Definition promises (devices : list IDevice)
  : list (option (option Device.IWizDevice)) :=
  imap promise devices.

(** [await Promise.all(promises)]: [None] while one of them is pending. *)
Definition Promise_all {A : Type} (ps : list (option A)) : option (list A) :=
  mapM id ps.

End Scan.

(** How a piece of asynchronous code ends. *)
Inductive completion (A : Type) : Type :=
| Pending
| TypeError
| Completed (a : A).
Arguments Pending {A}.
Arguments TypeError {A}.
Arguments Completed {A} a.

(** [wizDevices.forEach((wizDevice, index) => { if (wizDevice) {
    lights.push(wizDevice); } else { const deviceInfo = altDevices[index];
    console.error(`Cannot find wizDevice ${deviceInfo.ip}`); } })] from
    [index] on: the lights and what was written to the console.  Reading
    [ip] off an [altDevices[index]] that is [undefined] is a [TypeError]. *)
Fixpoint forEach_wizDevice (altDevices : list IDevice)
  (wizDevices : list (option Device.IWizDevice)) (index : nat)
  (lights : list Device.IWizDevice) (console : list Homebridge.call)
  : completion (list Device.IWizDevice * list Homebridge.call) :=
  match wizDevices with
  | [] => Completed (lights, console)
  | Some wizDevice :: wizDevices =>
      forEach_wizDevice altDevices wizDevices (S index)
        (lights ++ [wizDevice]) console
  | None :: wizDevices =>
      match altDevices !! index with
      | None => TypeError
      | Some deviceInfo =>
          forEach_wizDevice altDevices wizDevices (S index) lights
            (console ++
               [Homebridge.console_error
                  ("Cannot find wizDevice " ++ ip deviceInfo)%string])
      end
  end.

End Scan.

(** ** Registering the lights

    The loop over [lights] that ends [discoverDevices], the same text in
    [src/platform.ts] and in the platform over the hard-coded list. *)

Module Registrar.
Import Homebridge.

Section Registrar.

(** [api.hap.uuid.generate], and the two names of [./settings]. *)
Variable generate : string -> string.
Variables PLUGIN_NAME PLATFORM_NAME : string.

Definition type_name (type : Device.DeviceType) : string :=
  match type with
  | Device.WHITE_LIGHT => "WHITE_LIGHT"
  | Device.RGB_LIGHT => "RGB_LIGHT"
  | Device.SWITCH => "SWITCH"
  end.

(** An object is truthy. *)
Definition truthy_object (device : Device.IWizDevice) : bool := true.

(** One turn of [for (const device of lights)]. *)
Definition register_device (accessories : list PlatformAccessory)
  (device : Device.IWizDevice) : list call :=
  let uuid := generate (Device.mac device) in
  let existingAccessory :=
    find (fun accessory => (UUID accessory =? uuid)%string) accessories in
  match existingAccessory with
  | Some existingAccessory =>
      if truthy_object device then
        [log_info "Restoring existing accessory from cache:"
           (displayName existingAccessory);
         new_HomebridgeWizLight existingAccessory;
         updatePlatformAccessories [existingAccessory]]
      else if negb (truthy_object device) then
        [unregisterPlatformAccessories PLUGIN_NAME PLATFORM_NAME
           [existingAccessory];
         log_info "Removing existing accessory from cache:"
           (displayName existingAccessory)]
      else []
  | None =>
      let displayName :=
        ("WiZ " ++ type_name (Device.type device) ++ " "
           ++ Device.mac device)%string in
      let accessory :=
        {| displayName := displayName; UUID := uuid;
           context_device := device |} in
      [log_info "Adding new accessory:" displayName;
       new_HomebridgeWizLight accessory;
       registerPlatformAccessories PLUGIN_NAME PLATFORM_NAME [accessory]]
  end.

Definition register_lights (accessories : list PlatformAccessory)
  (lights : list Device.IWizDevice) : list call :=
  concat (map (register_device accessories) lights).

(** [configureAccessory(accessory)]: the accessories after it, and what it
    logs. *)
Definition configureAccessory (accessory : PlatformAccessory)
  (accessories : list PlatformAccessory)
  : list PlatformAccessory * list call :=
  (accessories ++ [accessory],
   [log_info "Loading accessory from cache:" (displayName accessory)]).

End Registrar.

End Registrar.

(** ** [discoverDevices] *)

Module PlatformDiscover.
Import Homebridge.

Section PlatformDiscover.

Variable generate : string -> string.
Variables PLUGIN_NAME PLATFORM_NAME : string.

(** [discoverDevices] of [src/platform.ts], once [find()] gave [devices]:
    [None] when an [await] never returns. *)
Definition discoverDevices (devices : list LocalDevices.IDevice)
  (events : nat -> list Discovery.event)
  (accessories : list PlatformAccessory) : option (list call) :=
  match Scan.await_each Platform.makeWizDevice Platform.timeout_ms events
          devices 0 [] with
  | None => None
  | Some lights =>
      Some (log_debug_lights lights
              :: Registrar.register_lights generate PLUGIN_NAME
                   PLATFORM_NAME accessories lights)
  end.

End PlatformDiscover.

End PlatformDiscover.

Module TestClassDiscover.
Import Homebridge.

(** [discoverDevices] of [TestClass]: the lights go to the console. *)
Definition discoverDevices (devices : list LocalDevices.IDevice)
  (events : nat -> list Discovery.event) : option (list call) :=
  match Scan.await_each TestClass.makeWizDevice TestClass.timeout_ms events
          devices 0 [] with
  | None => None
  | Some lights => Some [console_log_lights lights]
  end.

End TestClassDiscover.

Module HardcodedDiscover.
Import Homebridge LocalDevices.

(** "Use this since the router's ARP doesnt retrieve everything"; the
    upper-case addresses are written with [.toLowerCase()]. *)
Definition altDevices : list IDevice :=
  [ {| ip := "192.168.1.144"; mac := "a8bb506e798a"; name := "wiz_tmp1" |};
    {| ip := "192.168.1.73"; mac := "a8bb506aee9a"; name := "wiz_tmp2" |};
    {| ip := "192.168.1.64"; mac := "a8bb506b03d8"; name := "wiz_tmp3" |};
    {| ip := "192.168.1.18"; mac := "a8bb50cc54ec"; name := "wiz_tmp4" |};
    {| ip := "192.168.1.96"; mac := "a8bb50cc6e22"; name := "wiz_tmp5" |};
    {| ip := "192.168.1.92"; mac := "a8bb505415eb"; name := "wiz_tmp_6" |};
    {| ip := "192.168.1.39"; mac := "a8bb50522008"; name := "wiz_tmp_7" |};
    {| ip := "192.168.1.3"; mac := "a8bb50521d9d"; name := "wiz_tmp_8" |};
    {| ip := "192.168.1.194"; mac := "a8bb50521e15"; name := "wiz_tmp_9" |};
    {| ip := "192.168.1.17"; mac := "a8bb5055d8fe"; name := "wiz_tmp_10" |};
    {| ip := "192.168.1.87"; mac := "a8bb5055dfe0"; name := "wiz_tmp_11" |};
    {| ip := "192.168.1.47"; mac := "a8bb5055e2c6"; name := "wiz_tmp_12" |};
    {| ip := "192.168.1.189"; mac := "a8bb507d76e6"; name := "wiz_tmp_13" |} ].

Section HardcodedDiscover.

Variable generate : string -> string.
Variables PLUGIN_NAME PLATFORM_NAME : string.

(** The body of [discoverDevices] over a list of candidates. *)
Definition discover (devices : list IDevice)
  (events : nat -> list Discovery.event)
  (accessories : list PlatformAccessory) : Scan.completion (list call) :=
  let promises :=
    Scan.promises HardcodedPlatform.makeWizDevice
      HardcodedPlatform.timeout_ms events devices in
  match Scan.Promise_all promises with
  | None => Scan.Pending
  | Some wizDevices =>
      match Scan.forEach_wizDevice devices wizDevices 0 [] [] with
      | Scan.Pending => Scan.Pending
      | Scan.TypeError => Scan.TypeError
      | Scan.Completed (lights, console) =>
          Scan.Completed
            (console ++
               log_debug_lights lights
                 :: Registrar.register_lights generate PLUGIN_NAME
                      PLATFORM_NAME accessories lights)
      end
  end.

Definition discoverDevices : (nat -> list Discovery.event) ->
  list PlatformAccessory -> Scan.completion (list call) :=
  discover altDevices.

End HardcodedDiscover.

End HardcodedDiscover.

(** ** A sample scan *)

Module ScanSamples.
Import LocalDevices.

(** Two candidates; the first stays silent, the second answers. *)
Definition candidates : list IDevice :=
  [ {| name := "?"; ip := "192.168.1.144"; mac := "a8:bb:50:6e:79:8a" |};
    {| name := "?"; ip := "192.168.1.73"; mac := "a8:bb:50:6a:ee:9a" |} ].

Definition events (i : nat) : list Discovery.event :=
  match i with
  | O => [Discovery.SendDone false; Discovery.Timeout]
  | S _ => [Discovery.SendDone false;
            Discovery.Message (Pilot.Json Samples.white);
            Discovery.CloseTimer; Discovery.Timeout]
  end.

(** No candidate answers. *)
Definition silence (i : nat) : list Discovery.event :=
  [Discovery.SendDone false; Discovery.Timeout].

End ScanSamples.

(** ** The accessory without the coalescer, with its sockets

    [request] and the six handlers of [src/platformAccessory.ts]: every
    call opens a socket for its own callback; there is no flag and no
    queue.  [params] and [error] are those of [Light]; the mapper and the
    temperature callback are those of [LegacyLight]. *)

Module LegacyAccessory.
Import JS Pilot.

Definition hk : Type := nat.
Bind Scope nat_scope with hk.

(** The arrow functions the six handlers hand to [request]. *)
Inductive callback : Type :=
| getOn_cb (k : hk)
| getBrightness_cb (k : hk)
| getTemperature_cb (k : hk)
| setOn_cb (value : bool) (k : hk)
| setBrightness_cb (k : hk)
| setTemperature_cb (k : hk).

(** What HomeKit's callback receives after the [null] error; [dimming] of
    a reply that has none is [undefined]. *)
Inductive value : Type :=
| VUndefined
| VBool (b : bool)
| VNum (n : number).

Inductive effect : Type :=
| Sent (socket : nat) (method : string) (p : Light.params)
| Invoked (cb : callback) (response : IWizPilotResponse)
| Delivered (k : hk) (v : option value)
| Closed (socket : nat)
| Uncaught (e : Light.error).

(** [Brightness] is [None] once a reply without [dimming] was stored. *)
Record CurrentState : Type := {
  On : bool;
  Brightness : option Z;
  Temperature : number
}.

Record socket : Type := {
  sk_callback : callback;
  sk_open : bool;
  sk_close_timers : nat
}.

Record accessory : Type := {
  currentState : CurrentState;
  sockets : list socket;
  trace : list effect
}.

Definition init : accessory := {|
  currentState := {| On := false; Brightness := Some 100;
                     Temperature := Num 140 |};
  sockets := [];
  trace := []
|}.

Definition set_currentState (cs : CurrentState) (st : accessory)
  : accessory :=
  {| currentState := cs; sockets := sockets st; trace := trace st |}.

Definition set_sockets (sks : list socket) (st : accessory) : accessory :=
  {| currentState := currentState st; sockets := sks; trace := trace st |}.

Definition emit (e : effect) (st : accessory) : accessory :=
  {| currentState := currentState st; sockets := sockets st;
     trace := trace st ++ [e] |}.

(** [dimming] of the reply as a value. *)
Definition dimming_value (response : IWizPilotResponse) : value :=
  match dimming (result response) with
  | None => VUndefined
  | Some z => VNum (Num z)
  end.

(** [callback(JSON.parse(message.toString()))]: the body of each arrow
    function. *)
Definition invoke (cb : callback) (response : IWizPilotResponse)
  (st : accessory) : accessory :=
  let st := emit (Invoked cb response) st in
  let cs := currentState st in
  match cb with
  | getOn_cb k =>
      let st := set_currentState
                  {| On := state (result response);
                     Brightness := Brightness cs;
                     Temperature := Temperature cs |} st in
      emit (Delivered k (Some (VBool (state (result response))))) st
  | getBrightness_cb k =>
      let st := set_currentState
                  {| On := On cs;
                     Brightness := dimming (result response);
                     Temperature := Temperature cs |} st in
      emit (Delivered k (Some (dimming_value response))) st
  | getTemperature_cb k =>
      let st := set_currentState
                  {| On := On cs;
                     Brightness := Brightness cs;
                     Temperature :=
                       LegacyLight.calvinToTemp
                         (parseInt (temp (result response))) |} st in
      emit (Delivered k (Some (VNum (Temperature (currentState st))))) st
  | setOn_cb value k =>
      let st := set_currentState
                  {| On := value;
                     Brightness := Brightness cs;
                     Temperature := Temperature cs |} st in
      emit (Delivered k None) st
  | setBrightness_cb k => emit (Delivered k None) st
  | setTemperature_cb k => emit (Delivered k None) st
  end.

(** [request(method, params, callback)] up to its return. *)
Definition request (method : string) (p : Light.params) (callback : callback)
  (st : accessory) : accessory :=
  let client := length (sockets st) in
  let st := set_sockets
              (sockets st ++
                 [{| sk_callback := callback; sk_open := true;
                     sk_close_timers := 0 |}]) st in
  emit (Sent client method p) st.

(** [client.close()]. *)
Definition close (client : nat) (st : accessory) : accessory :=
  match sockets st !! client with
  | None => st
  | Some sk =>
      if sk_open sk then
        emit (Closed client)
          (set_sockets
             (<[client := {| sk_callback := sk_callback sk;
                             sk_open := false;
                             sk_close_timers := sk_close_timers sk |}]>
                (sockets st)) st)
      else emit (Uncaught Light.ERR_SOCKET_DGRAM_NOT_RUNNING) st
  end.

(** The ['message'] handler: [JSON.parse] outside any [try], first as the
    argument of [log.debug]; then the callback, then the close in a
    zero-delay timer. *)
Definition on_message (client : nat) (message : datagram) (st : accessory)
  : accessory :=
  match sockets st !! client with
  | None => st
  | Some sk =>
      if negb (sk_open sk) then st else
      match JSON_parse message with
      | None => emit (Uncaught Light.SyntaxError) st
      | Some response =>
          let st := invoke (sk_callback sk) response st in
          set_sockets
            (<[client := {| sk_callback := sk_callback sk;
                            sk_open := true;
                            sk_close_timers := S (sk_close_timers sk) |}]>
               (sockets st)) st
      end
  end.

(** The callback of [client.send]. *)
Definition on_send (client : nat) (error : bool) (st : accessory)
  : accessory :=
  match sockets st !! client with
  | None => st
  | Some sk =>
      if error then
        if sk_open sk then emit (Uncaught Light.SendError) (close client st)
        else close client st
      else st
  end.

Definition on_close_timer (client : nat) (st : accessory) : accessory :=
  match sockets st !! client with
  | None => st
  | Some sk =>
      match sk_close_timers sk with
      | O => st
      | S n =>
          close client
            (set_sockets
               (<[client := {| sk_callback := sk_callback sk;
                               sk_open := sk_open sk;
                               sk_close_timers := n |}]>
                  (sockets st)) st)
      end
  end.

Definition setOn (value : bool) (k : hk) (st : accessory) : accessory :=
  request "setPilot" (Light.StateParam value) (setOn_cb value k) st.

Definition getOn (k : hk) (st : accessory) : accessory :=
  request "getPilot" Light.NoParams (getOn_cb k) st.

Definition setBrightness (value : Z) (k : hk) (st : accessory)
  : accessory :=
  let cs := currentState st in
  let st := set_currentState
              {| On := On cs; Brightness := Some value;
                 Temperature := Temperature cs |} st in
  request "setPilot" (Light.DimmingParam value) (setBrightness_cb k) st.

Definition getBrightness (k : hk) (st : accessory) : accessory :=
  request "getPilot" Light.NoParams (getBrightness_cb k) st.

Definition setTemperature (value : Z) (k : hk) (st : accessory)
  : accessory :=
  let cs := currentState st in
  let st := set_currentState
              {| On := On cs; Brightness := Brightness cs;
                 Temperature := Num value |} st in
  request "setPilot"
    (Light.TempParam
       (LegacyLight.tempToCalvin (Temperature (currentState st))))
    (setTemperature_cb k) st.

Definition getTemperature (k : hk) (st : accessory) : accessory :=
  request "getPilot" Light.NoParams (getTemperature_cb k) st.

Inductive event : Type :=
| Call_setOn (value : bool) (k : hk)
| Call_getOn (k : hk)
| Call_setBrightness (value : Z) (k : hk)
| Call_getBrightness (k : hk)
| Call_setTemperature (value : Z) (k : hk)
| Call_getTemperature (k : hk)
| SendDone (client : nat) (error : bool)
| Message (client : nat) (message : datagram)
| CloseTimer (client : nat).

Definition step (st : accessory) (e : event) : accessory :=
  match e with
  | Call_setOn value k => setOn value k st
  | Call_getOn k => getOn k st
  | Call_setBrightness value k => setBrightness value k st
  | Call_getBrightness k => getBrightness k st
  | Call_setTemperature value k => setTemperature value k st
  | Call_getTemperature k => getTemperature k st
  | SendDone client error => on_send client error st
  | Message client message => on_message client message st
  | CloseTimer client => on_close_timer client st
  end.

Definition run (es : list event) (st : accessory) : accessory :=
  fold_left step es st.

Definition datagrams (t : list effect)
  : list (nat * string * Light.params) :=
  omap (fun e => match e with
                 | Sent client method p => Some (client, method, p)
                 | _ => None
                 end) t.

Definition invocations (t : list effect)
  : list (callback * IWizPilotResponse) :=
  omap (fun e => match e with
                 | Invoked cb response => Some (cb, response)
                 | _ => None
                 end) t.

Definition deliveries (t : list effect) : list (hk * option value) :=
  omap (fun e => match e with
                 | Delivered k v => Some (k, v)
                 | _ => None
                 end) t.

(** The request a handler call makes: method, params and callback. *)
Definition request_of (e : event)
  : option (string * Light.params * callback) :=
  match e with
  | Call_setOn value k =>
      Some ("setPilot"%string, Light.StateParam value, setOn_cb value k)
  | Call_getOn k => Some ("getPilot"%string, Light.NoParams, getOn_cb k)
  | Call_setBrightness value k =>
      Some ("setPilot"%string, Light.DimmingParam value, setBrightness_cb k)
  | Call_getBrightness k =>
      Some ("getPilot"%string, Light.NoParams, getBrightness_cb k)
  | Call_setTemperature value k =>
      Some ("setPilot"%string,
            Light.TempParam (LegacyLight.tempToCalvin (Num value)),
            setTemperature_cb k)
  | Call_getTemperature k =>
      Some ("getPilot"%string, Light.NoParams, getTemperature_cb k)
  | _ => None
  end.

End LegacyAccessory.
(** * The temperature mapper *)

Section Mapper.
Import JS.

Ltac push_inject_Z :=
  unfold Z.sub; rewrite ?inject_Z_plus, ?inject_Z_opp, ?inject_Z_mult.

(** [Math.round] of a number whose half-shift is the fraction [n / d]. *)
Lemma Math_round_fraction (q : Q) (n : Z) (d : positive) :
  (q + (1 # 2) == inject_Z n / inject_Z (Z.pos d))%Q ->
  Math_round q = n / Z.pos d.
Proof.
  intros E. unfold Math_round.
  rewrite (Qfloor_comp _ _ E).
  symmetry. apply Zdiv_Qdiv.
Qed.

(** The two mappers as integer divisions. *)
Lemma calvinToTemp_div (calvin : Z) :
  Light.calvinToTemp (Num calvin) = Num ((143695 - 18 * calvin) / 190).
Proof.
  unfold Light.calvinToTemp. f_equal.
  apply Math_round_fraction. push_inject_Z. field.
Qed.

Lemma tempToCalvin_div (temp : Z) :
  Light.tempToCalvin (Num temp) = Num ((143609 - 190 * temp) / 18).
Proof.
  unfold Light.tempToCalvin. f_equal.
  apply Math_round_fraction. push_inject_Z. field.
Qed.

Lemma legacy_calvinToTemp_div (calvin : Z) :
  LegacyLight.calvinToTemp (Num calvin) = Num ((18 * calvin - 21905) / 190).
Proof.
  unfold LegacyLight.calvinToTemp. f_equal.
  apply Math_round_fraction. push_inject_Z. field.
Qed.

Lemma legacy_tempToCalvin_same (temp : number) :
  LegacyLight.tempToCalvin temp = Light.tempToCalvin temp.
Proof. reflexivity. Qed.

(** At an integer input the argument of [Math.round] stays at least 1/190
    (mired) and 1/18 (Kelvin) away from every tie [n - 1/2]. *)
Lemma calvinToTemp_off_tie (calvin n : Z) :
  (1 # 190 <=
   Qabs (140 + (500 - 140) * (1 - (inject_Z calvin - 2700) / (6500 - 2700))
         + (1 # 2) - inject_Z n))%Q.
Proof.
  assert (E : (140 + (500 - 140) * (1 - (inject_Z calvin - 2700) / (6500 - 2700))
               + (1 # 2) - inject_Z n
               == (143695 - 18 * calvin - 190 * n) # 190)%Q).
  { rewrite (Qmake_Qdiv (143695 - 18 * calvin - 190 * n) 190).
    push_inject_Z. field. }
  rewrite E. unfold Qabs, Qle. simpl. lia.
Qed.

Lemma tempToCalvin_off_tie (temp n : Z) :
  (1 # 18 <=
   Qabs (2700 + (6500 - 2700) * (1 - (inject_Z temp - 140) / (500 - 140))
         + (1 # 2) - inject_Z n))%Q.
Proof.
  assert (E : (2700 + (6500 - 2700) * (1 - (inject_Z temp - 140) / (500 - 140))
               + (1 # 2) - inject_Z n
               == (143609 - 190 * temp - 18 * n) # 18)%Q).
  { rewrite (Qmake_Qdiv (143609 - 190 * temp - 18 * n) 18).
    push_inject_Z. field. }
  rewrite E. unfold Qabs, Qle. simpl. lia.
Qed.

(** Both mappers send [NaN] to [NaN]. *)
Lemma calvinToTemp_NaN : Light.calvinToTemp NaN = NaN.
Proof. reflexivity. Qed.

(** The coalescing accessory's mapper meets the four boundary equations. *)
Lemma mapper_boundary :
  Light.calvinToTemp (Num 2700) = Num 500 /\
  Light.calvinToTemp (Num 6500) = Num 140 /\
  Light.tempToCalvin (Num 140) = Num 6500 /\
  Light.tempToCalvin (Num 500) = Num 2700.
Proof. repeat split; vm_compute; reflexivity. Qed.

(** C4 (code bug).  In [src/platformAccessory.ts] [calvinToTemp] takes
    [p = current / total], so it maps 2700 K to 140 and 6500 K to 500: the two
    boundary equations of [kelvinToUnit] fail there, while [tempToCalvin] of
    the same file still maps 500 to 2700 and 140 to 6500. *)
Theorem legacy_calvinToTemp_boundary :
  LegacyLight.calvinToTemp (Num 2700) = Num 140 /\
  LegacyLight.calvinToTemp (Num 6500) = Num 500 /\
  LegacyLight.tempToCalvin (Num 140) = Num 6500 /\
  LegacyLight.tempToCalvin (Num 500) = Num 2700.
Proof. repeat split; vm_compute; reflexivity. Qed.

(** From mired to Kelvin and back is the identity on [140, 500]. *)
Lemma unit_round_trip (u : Z) :
  140 <= u <= 500 ->
  Light.calvinToTemp (Light.tempToCalvin (Num u)) = Num u.
Proof.
  intros Hu. rewrite tempToCalvin_div, calvinToTemp_div. f_equal.
  Z.to_euclidean_division_equations. lia.
Qed.

(** From Kelvin to mired and back moves a value by at most 5 K. *)
Lemma kelvin_round_trip (k : Z) :
  2700 <= k <= 6500 ->
  within 5 (Light.tempToCalvin (Light.calvinToTemp (Num k))) k.
Proof.
  intros Hk. rewrite calvinToTemp_div, tempToCalvin_div. unfold within.
  Z.to_euclidean_division_equations. lia.
Qed.

(** C3 (as stated).  2705 K maps to 500 mired, which maps back to 2700 K:
    the Kelvin round trip is not within 1 of where it started. *)
Lemma kelvin_round_trip_not_within_1 :
  ~ (forall k : Z, 2700 <= k <= 6500 ->
       within 1 (Light.tempToCalvin (Light.calvinToTemp (Num k))) k).
Proof.
  intros H. specialize (H 2705 ltac:(lia)).
  vm_compute in H. apply H. reflexivity.
Qed.

(** C3 (amended).  For every integer Kelvin [k] in [2700, 6500],
    [tempToCalvin (calvinToTemp k)] is within 5 of [k]; for every integer
    unit [u] in [140, 500], [calvinToTemp (tempToCalvin u)] is [u] itself,
    hence within 1 of [u]. *)
Theorem round_trip_tolerance :
  (forall k : Z, 2700 <= k <= 6500 ->
     within 5 (Light.tempToCalvin (Light.calvinToTemp (Num k))) k) /\
  (forall u : Z, 140 <= u <= 500 ->
     Light.calvinToTemp (Light.tempToCalvin (Num u)) = Num u /\
     within 1 (Light.calvinToTemp (Light.tempToCalvin (Num u))) u).
Proof.
  split.
  - apply kelvin_round_trip.
  - intros u Hu. rewrite (unit_round_trip u Hu). split; [reflexivity|].
    unfold within. lia.
Qed.

Lemma round_trip_tolerance_witness :
  within 5 (Light.tempToCalvin (Light.calvinToTemp (Num 2705))) 2705 /\
  Light.calvinToTemp (Light.tempToCalvin (Num 300)) = Num 300.
Proof.
  split.
  - apply (proj1 round_trip_tolerance 2705). lia.
  - apply (proj2 round_trip_tolerance 300). lia.
Defined.

(** The bound 5 is met: 2705 K comes back as 2700 K. *)
Lemma kelvin_round_trip_tight :
  Light.tempToCalvin (Light.calvinToTemp (Num 2705)) = Num 2700.
Proof. vm_compute. reflexivity. Qed.

End Mapper.

(** * The request coalescer *)

Section Coalescer.
Import JS Pilot Light.

(** ** What the callbacks leave alone *)

Lemma invoke_trace cb response st :
  trace (invoke cb response st) = trace st ++ invoke_effects response cb.
Proof.
  destruct cb; unfold invoke, invoke_effects; simpl;
    rewrite <- app_assoc; reflexivity.
Qed.

Lemma invoke_pendingRequest cb response st :
  pendingRequest (invoke cb response st) = pendingRequest st.
Proof. destruct cb; reflexivity. Qed.

Lemma invoke_callbacks cb response st :
  callbacks (invoke cb response st) = callbacks st.
Proof. destruct cb; reflexivity. Qed.

Lemma invoke_sockets cb response st :
  sockets (invoke cb response st) = sockets st.
Proof. destruct cb; reflexivity. Qed.

Lemma forEach_trace cbs response st :
  trace (forEach cbs response st)
  = trace st ++ concat (map (invoke_effects response) cbs).
Proof.
  revert st. induction cbs as [|cb cbs IH]; intros st; simpl.
  - rewrite app_nil_r. reflexivity.
  - unfold forEach in *. simpl. rewrite IH, invoke_trace.
    rewrite <- !app_assoc. reflexivity.
Qed.

Lemma forEach_frame cbs response st :
  pendingRequest (forEach cbs response st) = pendingRequest st /\
  callbacks (forEach cbs response st) = callbacks st /\
  sockets (forEach cbs response st) = sockets st.
Proof.
  revert st. induction cbs as [|cb cbs IH]; intros st; simpl.
  - repeat split.
  - unfold forEach in *. simpl.
    destruct (IH (invoke cb response st)) as (-> & -> & ->).
    rewrite invoke_pendingRequest, invoke_callbacks, invoke_sockets.
    repeat split.
Qed.

(** ** [getPilot] *)

Lemma getPilot_pending cb st :
  pendingRequest st = true ->
  getPilot cb st = set_callbacks (callbacks st ++ [cb]) st.
Proof. intros H. unfold getPilot. simpl. rewrite H. reflexivity. Qed.

Lemma getPilot_idle cb st :
  pendingRequest st = false ->
  getPilot cb st
  = request "getPilot" NoParams None (set_callbacks (callbacks st ++ [cb]) st).
Proof. intros H. unfold getPilot. simpl. rewrite H. reflexivity. Qed.

Lemma run_getPilot_pending cbs st :
  pendingRequest st = true ->
  run (map Call_getPilot cbs) st = set_callbacks (callbacks st ++ cbs) st.
Proof.
  revert st. induction cbs as [|cb cbs IH]; intros st H; simpl.
  - rewrite app_nil_r. destruct st; reflexivity.
  - unfold run in IH. rewrite getPilot_pending by exact H.
    rewrite IH by exact H. simpl. rewrite <- app_assoc. reflexivity.
Qed.

(** ** The three ways a message ends *)

Lemma on_message_queue st client sk message response :
  sockets st !! client = Some sk ->
  sk_open sk = true ->
  sk_callback sk = None ->
  JSON_parse message = Some response ->
  trace (on_message client message st)
  = trace st ++ concat (map (invoke_effects response) (callbacks st)) /\
  callbacks (on_message client message st) = [] /\
  pendingRequest (on_message client message st) = false.
Proof.
  intros Hsk Hopen Hcb Hparse. unfold on_message.
  rewrite Hsk, Hopen, Hparse, Hcb. simpl.
  rewrite forEach_trace. repeat split.
  apply forEach_frame.
Qed.

Lemma on_message_own st client sk cb message response :
  sockets st !! client = Some sk ->
  sk_open sk = true ->
  sk_callback sk = Some cb ->
  JSON_parse message = Some response ->
  trace (on_message client message st)
  = trace st ++ invoke_effects response cb /\
  callbacks (on_message client message st) = callbacks st /\
  pendingRequest (on_message client message st) = false.
Proof.
  intros Hsk Hopen Hcb Hparse. unfold on_message.
  rewrite Hsk, Hopen, Hparse, Hcb. simpl.
  rewrite invoke_trace, invoke_callbacks, invoke_pendingRequest.
  repeat split.
Qed.

Lemma on_message_not_json st client sk message :
  sockets st !! client = Some sk ->
  sk_open sk = true ->
  JSON_parse message = None ->
  on_message client message st
  = emit (Uncaught SyntaxError)
      (set_pendingRequest false
         (set_sockets
            (<[client := {| sk_method := sk_method sk;
                            sk_callback := sk_callback sk;
                            sk_open := true;
                            sk_answered := true;
                            sk_close_timers := sk_close_timers sk |}]>
               (sockets st)) st)).
Proof.
  intros Hsk Hopen Hparse. unfold on_message.
  rewrite Hsk, Hopen, Hparse. reflexivity.
Qed.

(** ** Reading the trace of a fan-out *)

Lemma datagrams_fan_out response cbs :
  datagrams (concat (map (invoke_effects response) cbs)) = [].
Proof. induction cbs as [|cb cbs IH]; simpl; auto. Qed.

Lemma invocations_fan_out response cbs :
  invocations (concat (map (invoke_effects response) cbs))
  = map (fun cb => (cb, response)) cbs.
Proof.
  induction cbs as [|cb cbs IH]; simpl; [reflexivity|].
  f_equal. exact IH.
Qed.

Lemma deliveries_fan_out response cbs :
  deliveries (concat (map (invoke_effects response) cbs))
  = map (fun cb => delivery cb response) cbs.
Proof.
  induction cbs as [|cb cbs IH]; simpl; [reflexivity|].
  rewrite <- surjective_pairing. f_equal. exact IH.
Qed.

(** ** A burst of [getPilot] calls *)

(** The state after a burst of [getPilot] calls on an idle accessory: one
    socket more, one datagram more, the whole burst queued, the flag set. *)
Lemma run_getPilot_burst cb cbs st :
  pendingRequest st = false ->
  run (map Call_getPilot (cb :: cbs)) st
  = set_callbacks (callbacks st ++ cb :: cbs)
      (request "getPilot" NoParams None st).
Proof.
  intros Hidle. simpl. rewrite getPilot_idle by exact Hidle.
  change (fold_left step (map Call_getPilot cbs) ?s)
    with (run (map Call_getPilot cbs) s).
  rewrite run_getPilot_pending by reflexivity.
  simpl. rewrite <- app_assoc. reflexivity.
Qed.

(** C2 (amended).  On an idle accessory (flag clear, queue empty),
    [N >= 1] calls of [getPilot] none of which comes after the send
    callback of the request (so that all but the first find the flag
    set), followed by one reply that parses, on the socket of the first
    call and with or without the send having completed before it, send
    exactly one datagram, apply the [N] callbacks to that same reply in
    the order they were queued, and leave the queue empty. *)
Theorem getPilot_burst_coalesced
  (st : light) (cbs : list callback) (send_done : bool)
  (message : datagram) (response : IWizPilotResponse) :
  pendingRequest st = false ->
  callbacks st = [] ->
  cbs <> [] ->
  JSON_parse message = Some response ->
  let client := length (sockets st) in
  let st' :=
    run (map Call_getPilot cbs
           ++ (if send_done then [SendDone client false] else [])
           ++ [Message client message]) st in
  let new := drop (length (trace st)) (trace st') in
  datagrams new = [(client, "getPilot"%string, NoParams)] /\
  invocations new = map (fun cb => (cb, response)) cbs /\
  deliveries new = map (fun cb => delivery cb response) cbs /\
  callbacks st' = [].
Proof.
  intros Hidle Hempty Hcbs Hparse client st' new.
  destruct cbs as [|cb cbs]; [congruence|].
  set (fresh := createSocket "getPilot" None).
  set (burst := set_callbacks (callbacks st ++ cb :: cbs)
                  (request "getPilot" NoParams None st)).
  set (sent := if send_done then set_pendingRequest false burst else burst).
  assert (Hlookup : sockets burst !! client = Some fresh).
  { simpl. apply list_lookup_middle. reflexivity. }
  assert (Hsent : run (map Call_getPilot (cb :: cbs)
                         ++ (if send_done then [SendDone client false] else []))
                    st = sent).
  { unfold run. rewrite fold_left_app.
    change (fold_left step (map Call_getPilot (cb :: cbs)) st)
      with (run (map Call_getPilot (cb :: cbs)) st).
    rewrite run_getPilot_burst by exact Hidle. fold burst.
    unfold sent. destruct send_done; [|reflexivity].
    simpl. unfold on_send. simpl in Hlookup. simpl. rewrite Hlookup.
    reflexivity. }
  assert (Hst' : st' = on_message client message sent).
  { unfold st', run. rewrite app_assoc, fold_left_app.
    change (fold_left step ?es st) with (run es st).
    rewrite Hsent. reflexivity. }
  assert (Hsk : sockets sent !! client = Some fresh).
  { unfold sent. destruct send_done; exact Hlookup. }
  destruct (on_message_queue sent client fresh message response
              Hsk eq_refl eq_refl Hparse) as (Htrace & Hqueue & _).
  assert (Hnew : new = [Sent client "getPilot" NoParams]
                       ++ concat (map (invoke_effects response) (cb :: cbs))).
  { unfold new. rewrite Hst', Htrace.
    assert (Ht : trace sent = trace st ++ [Sent client "getPilot" NoParams])
      by (unfold sent; destruct send_done; reflexivity).
    assert (Hq : callbacks sent = cb :: cbs)
      by (unfold sent; destruct send_done; simpl; rewrite Hempty; reflexivity).
    rewrite Ht, Hq, <- app_assoc, drop_app_length. reflexivity. }
  rewrite Hnew, Hst'. unfold datagrams, invocations, deliveries.
  rewrite !omap_app.
  fold (datagrams (concat (map (invoke_effects response) (cb :: cbs)))).
  fold (invocations (concat (map (invoke_effects response) (cb :: cbs)))).
  fold (deliveries (concat (map (invoke_effects response) (cb :: cbs)))).
  rewrite datagrams_fan_out, invocations_fan_out, deliveries_fan_out.
  repeat split. exact Hqueue.
Qed.

(** Calls that find a [getPilot] request outstanding, the flag still set:
    they send nothing, and the reply applies the callbacks queued before
    them and theirs, in queue order. *)
Lemma getPilot_calls_join_outstanding
  (st : light) (client : nat) (sk : socket) (cbs : list callback)
  (message : datagram) (response : IWizPilotResponse) :
  pendingRequest st = true ->
  sockets st !! client = Some sk ->
  sk_open sk = true ->
  sk_callback sk = None ->
  JSON_parse message = Some response ->
  let st' := run (map Call_getPilot cbs ++ [Message client message]) st in
  let new := drop (length (trace st)) (trace st') in
  datagrams new = [] /\
  invocations new = map (fun cb => (cb, response)) (callbacks st ++ cbs) /\
  callbacks st' = [].
Proof.
  intros Hflag Hsk Hopen Hcb Hparse st' new.
  assert (Hst' : st' = on_message client message
                         (set_callbacks (callbacks st ++ cbs) st)).
  { unfold st', run. rewrite fold_left_app.
    change (fold_left step (map Call_getPilot cbs) st)
      with (run (map Call_getPilot cbs) st).
    rewrite run_getPilot_pending by exact Hflag. reflexivity. }
  destruct (on_message_queue (set_callbacks (callbacks st ++ cbs) st)
              client sk message response Hsk Hopen Hcb Hparse)
    as (Htrace & Hqueue & _).
  unfold new. rewrite Hst', Htrace. simpl. rewrite drop_app_length.
  rewrite datagrams_fan_out, invocations_fan_out.
  repeat split. exact Hqueue.
Qed.

Lemma getPilot_calls_join_outstanding_witness :
  let st := getPilot (getOn_cb 1) init in
  let st' := run (map Call_getPilot [getBrightness_cb 2; getTemperature_cb 3]
                    ++ [Message 0 (Json Samples.white)]) st in
  let new := drop (length (trace st)) (trace st') in
  datagrams new = [] /\
  invocations new
  = map (fun cb => (cb, Samples.white))
      (callbacks st ++ [getBrightness_cb 2; getTemperature_cb 3]) /\
  callbacks st' = [].
Proof.
  exact (getPilot_calls_join_outstanding (getPilot (getOn_cb 1) init) 0%nat
           (createSocket "getPilot" None)
           [getBrightness_cb 2; getTemperature_cb 3]
           (Json Samples.white) Samples.white
           eq_refl eq_refl eq_refl eq_refl eq_refl).
Defined.

(** ** What each handler does to the flag, the queue and the trace *)

Lemma close_pendingRequest client st :
  pendingRequest (close client st) = pendingRequest st.
Proof.
  unfold close. destruct (sockets st !! client) as [sk|]; [|reflexivity].
  destruct (sk_open sk); reflexivity.
Qed.

Lemma close_callbacks client st :
  callbacks (close client st) = callbacks st.
Proof.
  unfold close. destruct (sockets st !! client) as [sk|]; [|reflexivity].
  destruct (sk_open sk); reflexivity.
Qed.

Lemma close_trace client st :
  exists l, trace (close client st) = trace st ++ l /\ silent l.
Proof.
  unfold close. destruct (sockets st !! client) as [sk|].
  - destruct (sk_open sk); eexists; split; try reflexivity; split; reflexivity.
  - exists []. rewrite app_nil_r. repeat split.
Qed.

Lemma request_trace method p cb st :
  trace (request method p cb st)
  = trace st ++ [Sent (length (sockets st)) method p].
Proof. reflexivity. Qed.

Lemma getPilot_trace cb st :
  exists l, trace (getPilot cb st) = trace st ++ l /\ silent l.
Proof.
  unfold getPilot. simpl. destruct (pendingRequest st); simpl.
  - exists []. rewrite app_nil_r. repeat split.
  - eexists. split; [reflexivity|]. split; reflexivity.
Qed.

Lemma on_send_trace client error st :
  exists l, trace (on_send client error st) = trace st ++ l /\ silent l.
Proof.
  unfold on_send. destruct (sockets st !! client) as [sk|].
  - destruct error.
    + destruct (close_trace client (set_pendingRequest false st))
        as (l & Hl & Hinv & Hdel).
      destruct (sk_open sk).
      * exists (l ++ [Uncaught SendError]). simpl. rewrite Hl.
        rewrite <- app_assoc. split; [reflexivity|].
        unfold silent, invocations, deliveries in *.
        rewrite !omap_app, Hinv, Hdel. split; reflexivity.
      * exists l. split; [exact Hl | split; assumption].
    + exists []. rewrite app_nil_r. repeat split.
  - exists []. rewrite app_nil_r. repeat split.
Qed.

Lemma on_close_timer_trace client st :
  exists l, trace (on_close_timer client st) = trace st ++ l /\ silent l.
Proof.
  unfold on_close_timer. destruct (sockets st !! client) as [sk|].
  - destruct (sk_close_timers sk).
    + exists []. rewrite app_nil_r. repeat split.
    + exact (close_trace client (set_sockets _ st)).
  - exists []. rewrite app_nil_r. repeat split.
Qed.

Lemma step_trace_without_message st e :
  is_message e = false ->
  exists l, trace (step st e) = trace st ++ l /\ silent l.
Proof.
  intros He. destruct e; try discriminate He; simpl.
  - eexists. split; [reflexivity|]. split; reflexivity.
  - apply getPilot_trace.
  - eexists. split; [reflexivity|]. split; reflexivity.
  - apply getPilot_trace.
  - eexists. split; [reflexivity|]. split; reflexivity.
  - apply getPilot_trace.
  - apply getPilot_trace.
  - apply on_send_trace.
  - apply on_close_timer_trace.
Qed.

Lemma run_trace_without_message es st :
  forallb (fun e => negb (is_message e)) es = true ->
  exists l, trace (run es st) = trace st ++ l /\ silent l.
Proof.
  revert st. induction es as [|e es IH]; intros st Hes; simpl in *.
  - exists []. rewrite app_nil_r. repeat split.
  - apply andb_prop in Hes as [He Hes].
    apply negb_true_iff in He.
    destruct (step_trace_without_message st e He) as (l1 & H1 & I1 & D1).
    destruct (IH (step st e) Hes) as (l2 & H2 & I2 & D2).
    exists (l1 ++ l2). unfold run in *. rewrite H2, H1, <- app_assoc.
    split; [reflexivity|].
    unfold silent, invocations, deliveries in *.
    rewrite !omap_app, I1, I2, D1, D2. split; reflexivity.
Qed.

(** ** The queue only grows until a reply drains it *)

Lemma on_send_callbacks client error st :
  callbacks (on_send client error st) = callbacks st.
Proof.
  unfold on_send. destruct (sockets st !! client) as [sk|]; [|reflexivity].
  destruct error; [|reflexivity].
  destruct (sk_open sk); simpl; rewrite ?close_callbacks; reflexivity.
Qed.

Lemma on_close_timer_callbacks client st :
  callbacks (on_close_timer client st) = callbacks st.
Proof.
  unfold on_close_timer.
  destruct (sockets st !! client) as [sk|]; [|reflexivity].
  destruct (sk_close_timers sk); [reflexivity|].
  rewrite close_callbacks. reflexivity.
Qed.

Lemma getPilot_callbacks cb st :
  callbacks (getPilot cb st) = callbacks st ++ [cb].
Proof. unfold getPilot. simpl. destruct (pendingRequest st); reflexivity. Qed.

Lemma step_keeps_queue st e :
  drains st e = false ->
  exists more, callbacks (step st e) = callbacks st ++ more.
Proof.
  intros Hd. destruct e; simpl.
  - exists []. rewrite app_nil_r. reflexivity.
  - eexists. apply getPilot_callbacks.
  - exists []. rewrite app_nil_r. reflexivity.
  - eexists. apply getPilot_callbacks.
  - exists []. rewrite app_nil_r. reflexivity.
  - eexists. apply getPilot_callbacks.
  - eexists. apply getPilot_callbacks.
  - exists []. rewrite app_nil_r. apply on_send_callbacks.
  - exists []. rewrite app_nil_r. simpl in Hd. unfold on_message.
    destruct (sockets st !! client) as [sk|]; [|reflexivity].
    destruct (sk_open sk); [|reflexivity]. simpl.
    destruct (JSON_parse message) as [response|]; [|reflexivity].
    destruct (sk_callback sk) as [own|]; [|discriminate Hd].
    simpl. rewrite invoke_callbacks. reflexivity.
  - exists []. rewrite app_nil_r. apply on_close_timer_callbacks.
Qed.

Lemma run_keeps_queue es st :
  no_drain es st = true ->
  exists more, callbacks (run es st) = callbacks st ++ more.
Proof.
  revert st. induction es as [|e es IH]; intros st Hes; simpl in *.
  - exists []. rewrite app_nil_r. reflexivity.
  - apply andb_prop in Hes as [He Hes]. apply negb_true_iff in He.
    destruct (step_keeps_queue st e He) as (m1 & H1).
    destruct (IH (step st e) Hes) as (m2 & H2).
    exists (m1 ++ m2). unfold run in *. rewrite H2, H1, <- app_assoc.
    reflexivity.
Qed.

(** ** Only the send callback and the message handler clear the flag *)

Lemma on_close_timer_pendingRequest client st :
  pendingRequest (on_close_timer client st) = pendingRequest st.
Proof.
  unfold on_close_timer.
  destruct (sockets st !! client) as [sk|]; [|reflexivity].
  destruct (sk_close_timers sk); [reflexivity|].
  rewrite close_pendingRequest. reflexivity.
Qed.

Lemma on_send_pendingRequest client error st :
  is_Some (sockets st !! client) ->
  pendingRequest (on_send client error st) = false.
Proof.
  intros [sk Hsk]. unfold on_send. rewrite Hsk.
  destruct error; [|reflexivity].
  destruct (sk_open sk); simpl; rewrite ?close_pendingRequest; reflexivity.
Qed.

Lemma on_message_pendingRequest client message sk st :
  sockets st !! client = Some sk ->
  sk_open sk = true ->
  pendingRequest (on_message client message st) = false.
Proof.
  intros Hsk Hopen. unfold on_message. rewrite Hsk, Hopen. simpl.
  destruct (JSON_parse message) as [response|]; [|reflexivity].
  destruct (sk_callback sk) as [own|]; simpl.
  - apply invoke_pendingRequest.
  - apply forEach_frame.
Qed.

Lemma flag_cleared_by st e :
  pendingRequest st = true ->
  pendingRequest (step st e) = false ->
  (exists client error, e = SendDone client error) \/
  (exists client message, e = Message client message).
Proof.
  intros Hset Hclear. destruct e; simpl in Hclear;
    try discriminate Hclear;
    try (unfold getOn, getBrightness, getTemperature in Hclear;
         rewrite getPilot_pending in Hclear by exact Hset;
         simpl in Hclear; congruence).
  - left. eauto.
  - right. eauto.
  - rewrite on_close_timer_pendingRequest in Hclear. congruence.
Qed.

(** ** A socket nobody answers stays as it is *)

Lemma close_sockets_ne other client st :
  other <> client ->
  sockets (close other st) !! client = sockets st !! client.
Proof.
  intros Hne. unfold close.
  destruct (sockets st !! other) as [sk|]; [|reflexivity].
  destruct (sk_open sk); simpl; [|reflexivity].
  apply list_lookup_insert_ne. exact Hne.
Qed.

Lemma getPilot_sockets cb st client sk :
  sockets st !! client = Some sk ->
  sockets (getPilot cb st) !! client = Some sk.
Proof.
  intros Hsk. unfold getPilot. simpl.
  destruct (pendingRequest st); simpl; [exact Hsk|].
  apply lookup_app_l_Some. exact Hsk.
Qed.

Lemma step_quiet_socket st e client sk :
  quiet e = true ->
  sockets st !! client = Some sk ->
  sk_open sk = true ->
  sk_close_timers sk = 0%nat ->
  sockets (step st e) !! client = Some sk.
Proof.
  intros Hq Hsk Hopen Htimers.
  destruct e as [v k|k|v k|k|v k|k|cb|other failed|other message|other];
    simpl in *;
    try discriminate Hq;
    try (apply getPilot_sockets; exact Hsk);
    try (apply lookup_app_l_Some; exact Hsk).
  - apply negb_true_iff in Hq. subst failed. unfold on_send.
    destruct (sockets st !! other); exact Hsk.
  - unfold on_close_timer.
    destruct (decide (other = client)) as [->|Hne].
    + rewrite Hsk, Htimers. exact Hsk.
    + destruct (sockets st !! other) as [sk0|]; [|exact Hsk].
      destruct (sk_close_timers sk0); [exact Hsk|].
      rewrite close_sockets_ne by exact Hne. simpl.
      rewrite list_lookup_insert_ne by exact Hne. exact Hsk.
Qed.

Lemma run_quiet_socket es st client sk :
  forallb quiet es = true ->
  sockets st !! client = Some sk ->
  sk_open sk = true ->
  sk_close_timers sk = 0%nat ->
  sockets (run es st) !! client = Some sk.
Proof.
  revert st. induction es as [|e es IH]; intros st Hes Hsk Hopen Htimers.
  - exact Hsk.
  - simpl in Hes. apply andb_prop in Hes as [He Hes].
    apply (IH (step st e) Hes); auto using step_quiet_socket.
Qed.

Lemma quiet_not_message es :
  forallb quiet es = true ->
  forallb (fun e => negb (is_message e)) es = true.
Proof.
  induction es as [|e es IH]; simpl; [reflexivity|].
  intros H. apply andb_prop in H as [He Hes].
  rewrite (IH Hes), andb_true_r. destruct e; try reflexivity; discriminate.
Qed.

End Coalescer.

(** * The claims on the coalescer *)

Section CoalescerClaims.
Import JS Pilot Light.

(** Five getters in one burst, the send completing, then the reply. *)
Lemma getPilot_burst_coalesced_witness :
  let st := init in
  let cbs := [getOn_cb 1; getBrightness_cb 2; getTemperature_cb 3;
              getOn_cb 4; getBrightness_cb 5] in
  let client := length (sockets st) in
  let st' :=
    run (map Call_getPilot cbs
           ++ (if true then [SendDone client false] else [])
           ++ [Message client (Json Samples.white)]) st in
  let new := drop (length (trace st)) (trace st') in
  datagrams new = [(client, "getPilot"%string, NoParams)] /\
  invocations new = map (fun cb => (cb, Samples.white)) cbs /\
  deliveries new = map (fun cb => delivery cb Samples.white) cbs /\
  callbacks st' = [].
Proof.
  exact (getPilot_burst_coalesced init
           [getOn_cb 1; getBrightness_cb 2; getTemperature_cb 3;
            getOn_cb 4; getBrightness_cb 5]
           true (Json Samples.white) Samples.white
           eq_refl eq_refl ltac:(discriminate) eq_refl).
Defined.

(** C2 (as stated).  Two getters with the send callback between them, and
    one reply: at the second call exactly one exchange is outstanding,
    yet the flag is clear and the call sends a second datagram.  The
    reply to the first datagram still serves both callbacks, in order. *)
Lemma getPilot_after_send_completion_sends_again :
  let es := [Call_getPilot (getOn_cb 1); SendDone 0 false;
             Call_getPilot (getBrightness_cb 2);
             Message 0 (Json Samples.white)] in
  outstanding_getPilot
    (run [Call_getPilot (getOn_cb 1); SendDone 0 false] init) = 1%nat /\
  datagrams (trace (run es init))
  = [(0%nat, "getPilot"%string, NoParams);
     (1%nat, "getPilot"%string, NoParams)] /\
  invocations (trace (run es init))
  = [(getOn_cb 1, Samples.white); (getBrightness_cb 2, Samples.white)] /\
  callbacks (run es init) = [] /\
  ~ (forall (cbs1 cbs2 : list callback) (response : IWizPilotResponse),
       cbs1 <> [] ->
       length
         (datagrams
            (trace
               (run (map Call_getPilot cbs1 ++ [SendDone 0 false]
                       ++ map Call_getPilot cbs2
                       ++ [Message 0 (Json response)]) init)))
       = 1%nat).
Proof.
  cbv zeta. split; [reflexivity|]. split; [reflexivity|].
  split; [reflexivity|]. split; [reflexivity|].
  intros H.
  specialize (H [getOn_cb 1] [getBrightness_cb 2] Samples.white
                ltac:(discriminate)).
  vm_compute in H. discriminate H.
Qed.

(** C1 (as stated).  One [getOn], its send completing, and a second
    [getOn] before any reply: the send callback has cleared the flag with
    the first exchange still unanswered, the second call sends a datagram
    of its own, and two [getPilot] exchanges are outstanding. *)
Lemma getPilot_exchanges_not_bounded :
  (pendingRequest (run [Call_getOn 1; SendDone 0 false] init) = false /\
   outstanding_getPilot (run [Call_getOn 1; SendDone 0 false] init) = 1%nat) /\
  (datagrams
     (trace (run [Call_getOn 1; SendDone 0 false; Call_getOn 2] init))
   = [(0%nat, "getPilot"%string, NoParams);
      (1%nat, "getPilot"%string, NoParams)] /\
   outstanding_getPilot
     (run [Call_getOn 1; SendDone 0 false; Call_getOn 2] init) = 2%nat) /\
  ~ (forall es : list event, (outstanding_getPilot (run es init) <= 1)%nat).
Proof.
  split; [split; reflexivity|]. split; [split; reflexivity|].
  intros H.
  specialize (H [Call_getOn 1; SendDone 0 false; Call_getOn 2]).
  vm_compute in H. lia.
Qed.

(** C1 (amended).  [request] sets the flag before it hands the datagram to
    the socket.  A [getPilot] call that finds the flag set queues its
    callback and does nothing else: no socket, no datagram.  A call that
    finds it clear queues its callback, sets the flag and sends one
    datagram on one new socket.  The flag is cleared by the send callback
    and by the message handler, and by nothing else. *)
Theorem pendingRequest_gates_getPilot :
  (forall method p cb st,
     request method p cb st
     = emit (Sent (length (sockets st)) method p)
         (set_sockets (sockets st ++ [createSocket method cb])
            (set_pendingRequest true st))) /\
  (forall cb st,
     pendingRequest st = true ->
     getPilot cb st = set_callbacks (callbacks st ++ [cb]) st) /\
  (forall cb st,
     pendingRequest st = false ->
     pendingRequest (getPilot cb st) = true /\
     callbacks (getPilot cb st) = callbacks st ++ [cb] /\
     sockets (getPilot cb st)
     = sockets st ++ [createSocket "getPilot" None] /\
     trace (getPilot cb st)
     = trace st ++ [Sent (length (sockets st)) "getPilot" NoParams]) /\
  (forall client failed st,
     is_Some (sockets st !! client) ->
     pendingRequest (on_send client failed st) = false) /\
  (forall client message sk st,
     sockets st !! client = Some sk ->
     sk_open sk = true ->
     pendingRequest (on_message client message st) = false) /\
  (forall st e,
     pendingRequest st = true ->
     pendingRequest (step st e) = false ->
     (exists client failed, e = SendDone client failed) \/
     (exists client message, e = Message client message)).
Proof.
  split; [reflexivity|].
  split; [exact getPilot_pending|].
  split.
  { intros cb st Hidle. rewrite getPilot_idle by exact Hidle.
    repeat split. }
  split; [exact on_send_pendingRequest|].
  split; [exact on_message_pendingRequest|].
  exact flag_cleared_by.
Qed.

Lemma pendingRequest_gates_getPilot_witness :
  getPilot (getBrightness_cb 2) (getPilot (getOn_cb 1) init)
  = set_callbacks [getOn_cb 1; getBrightness_cb 2]
      (getPilot (getOn_cb 1) init) /\
  trace (getPilot (getOn_cb 1) init) = [Sent 0 "getPilot" NoParams] /\
  pendingRequest (on_send 0 false (getPilot (getOn_cb 1) init)) = false.
Proof.
  destruct pendingRequest_gates_getPilot
    as (_ & Hset & Hclear & Hsend & _ & _).
  split; [|split].
  - apply (Hset (getBrightness_cb 2) (getPilot (getOn_cb 1) init)).
    reflexivity.
  - apply (Hclear (getOn_cb 1) init). reflexivity.
  - apply (Hsend 0%nat false (getPilot (getOn_cb 1) init)).
    exists (createSocket "getPilot" None). reflexivity.
Defined.

(** A set handler is [request] with a callback of its own: the flag is
    set, one socket is added, the queue is not touched. *)
Lemma set_call_requests st e own :
  set_callback_of e = Some own ->
  pendingRequest (step st e) = true /\
  sockets (step st e) = sockets st ++ [createSocket "setPilot" (Some own)] /\
  callbacks (step st e) = callbacks st /\
  exists p, trace (step st e)
            = trace st ++ [Sent (length (sockets st)) "setPilot" p].
Proof.
  intros Hown.
  destruct e; simpl in Hown; try discriminate Hown;
    injection Hown as <-; simpl; repeat split; eexists; reflexivity.
Qed.

(** C10 (as stated).  [setOn], its send completing, and a [getOn] with the
    [setPilot] still unanswered: the send callback has cleared the flag,
    and the getter sends a [getPilot] datagram of its own.  So a
    [setPilot] socket that is open and unanswered does not keep a
    [getPilot] call from sending. *)
Lemma getPilot_after_setPilot_send_completion :
  let sent := run [Call_setOn true 1; SendDone 0 false] init in
  pendingRequest sent = false /\
  sockets sent = [createSocket "setPilot" (Some (setOn_cb true 1))] /\
  datagrams (trace (getPilot (getOn_cb 2) sent))
  = [(0%nat, "setPilot"%string, StateParam true);
     (1%nat, "getPilot"%string, NoParams)] /\
  ~ (forall es client sk cb,
       sockets (run es init) !! client = Some sk ->
       sk_method sk = "setPilot"%string ->
       sk_open sk = true ->
       sk_answered sk = false ->
       datagrams (trace (getPilot cb (run es init)))
       = datagrams (trace (run es init))).
Proof.
  cbv zeta. split; [reflexivity|]. split; [reflexivity|].
  split; [reflexivity|].
  intros H.
  specialize (H [Call_setOn true 1; SendDone 0 false] 0%nat
                (createSocket "setPilot" (Some (setOn_cb true 1)))
                (getOn_cb 2) eq_refl eq_refl eq_refl eq_refl).
  vm_compute in H. discriminate H.
Qed.

(** C10 (amended).  A set handler's [request] sets the flag [getPilot]
    tests, on a socket with the handler's own callback.  As long as the
    flag is set, [getPilot] calls, however many, send nothing and queue
    their callbacks.  A reply on a socket with a callback of its own
    applies that callback and nothing else, and leaves the queue as it
    is.  The queued callbacks stay queued, whatever happens, until a
    reply that parses arrives on a socket [getPilot] created; that reply
    applies every queued callback and empties the queue.  Put together:
    after a set handler, any number of [getPilot] calls made while the
    flag is set send nothing, the reply to the [setPilot] applies the
    set handler's callback alone, and the callbacks remain queued. *)
Theorem getPilot_during_setPilot :
  (forall st e own,
     set_callback_of e = Some own ->
     pendingRequest (step st e) = true /\
     sockets (step st e)
     = sockets st ++ [createSocket "setPilot" (Some own)] /\
     callbacks (step st e) = callbacks st) /\
  (forall st cbs,
     pendingRequest st = true ->
     run (map Call_getPilot cbs) st
     = set_callbacks (callbacks st ++ cbs) st) /\
  (forall st client sk own message response,
     sockets st !! client = Some sk ->
     sk_open sk = true ->
     sk_callback sk = Some own ->
     JSON_parse message = Some response ->
     trace (on_message client message st)
     = trace st ++ invoke_effects response own /\
     callbacks (on_message client message st) = callbacks st) /\
  (forall st es,
     no_drain es st = true ->
     exists more, callbacks (run es st) = callbacks st ++ more) /\
  (forall st client sk message response,
     sockets st !! client = Some sk ->
     sk_open sk = true ->
     sk_callback sk = None ->
     JSON_parse message = Some response ->
     invocations
       (drop (length (trace st)) (trace (on_message client message st)))
     = map (fun cb => (cb, response)) (callbacks st) /\
     callbacks (on_message client message st) = []) /\
  (forall st e own cbs (send_done : bool) message response,
     set_callback_of e = Some own ->
     JSON_parse message = Some response ->
     let client := length (sockets st) in
     let st1 := step st e in
     let st3 :=
       run (map Call_getPilot cbs
              ++ (if send_done then [SendDone client false] else [])
              ++ [Message client message]) st1 in
     let new := drop (length (trace st1)) (trace st3) in
     datagrams new = [] /\
     invocations new = [(own, response)] /\
     callbacks st3 = callbacks st ++ cbs /\
     forall es,
       no_drain es st3 = true ->
       exists more, callbacks (run es st3) = callbacks st ++ cbs ++ more).
Proof.
  split.
  { intros st e own Hown.
    destruct (set_call_requests st e own Hown) as (Hf & Hs & Hq & _).
    auto. }
  split; [intros st cbs; apply run_getPilot_pending|].
  split.
  { intros st client sk own message response Hsk Hopen Hcb Hparse.
    destruct (on_message_own st client sk own message response
                Hsk Hopen Hcb Hparse) as (Ht & Hq & _).
    auto. }
  split; [intros st es; apply run_keeps_queue|].
  split.
  { intros st client sk message response Hsk Hopen Hcb Hparse.
    destruct (on_message_queue st client sk message response
                Hsk Hopen Hcb Hparse) as (Ht & Hq & _).
    rewrite Ht, drop_app_length, invocations_fan_out. auto. }
  intros st e own cbs send_done message response Hown Hparse
    client st1 st3 new.
  destruct (set_call_requests st e own Hown) as (Hflag & Hsks & Hq & _).
  fold st1 in Hflag, Hsks, Hq.
  set (queued := set_callbacks (callbacks st ++ cbs) st1).
  set (sent := if send_done then set_pendingRequest false queued
               else queued).
  assert (Hlookup : sockets queued !! client
                    = Some (createSocket "setPilot" (Some own))).
  { simpl. rewrite Hsks. apply list_lookup_middle. reflexivity. }
  assert (Hsent : run (map Call_getPilot cbs
                         ++ (if send_done then [SendDone client false]
                             else [])) st1 = sent).
  { unfold run. rewrite fold_left_app.
    change (fold_left step (map Call_getPilot cbs) st1)
      with (run (map Call_getPilot cbs) st1).
    rewrite run_getPilot_pending by exact Hflag. rewrite Hq. fold queued.
    unfold sent. destruct send_done; [|reflexivity].
    simpl. unfold on_send. simpl in Hlookup. simpl. rewrite Hlookup.
    reflexivity. }
  assert (Hst3 : st3 = on_message client message sent).
  { unfold st3, run. rewrite app_assoc, fold_left_app.
    change (fold_left step ?es st1) with (run es st1).
    rewrite Hsent. reflexivity. }
  assert (Hsk : sockets sent !! client
                = Some (createSocket "setPilot" (Some own))).
  { unfold sent. destruct send_done; exact Hlookup. }
  destruct (on_message_own sent client _ own message response
              Hsk eq_refl eq_refl Hparse) as (Htrace & Hqueue & _).
  assert (Ht : trace sent = trace st1)
    by (unfold sent; destruct send_done; reflexivity).
  assert (Hc : callbacks sent = callbacks st ++ cbs)
    by (unfold sent; destruct send_done; reflexivity).
  assert (Hnew : new = invoke_effects response own).
  { unfold new. rewrite Hst3, Htrace, Ht, drop_app_length. reflexivity. }
  assert (H3 : callbacks st3 = callbacks st ++ cbs).
  { rewrite Hst3, Hqueue, Hc. reflexivity. }
  rewrite Hnew. split; [reflexivity|]. split; [reflexivity|].
  split; [exact H3|].
  intros es Hes. destruct (run_keeps_queue es st3 Hes) as (more & Hmore).
  exists more. rewrite Hmore, H3, <- app_assoc. reflexivity.
Qed.

(** [setOn(true)], two getters while the flag is set, the send completing,
    the acknowledgement of the [setPilot]; then a later getter whose reply
    drains the queue. *)
Lemma getPilot_during_setPilot_witness :
  let st3 := run (map Call_getPilot [getOn_cb 2; getBrightness_cb 3]
                    ++ (if true then [SendDone 0 false] else [])
                    ++ [Message 0 (Json Samples.ack)])
               (step init (Call_setOn true 1)) in
  (datagrams (drop (length (trace (step init (Call_setOn true 1))))
                (trace st3)) = [] /\
   invocations (drop (length (trace (step init (Call_setOn true 1))))
                  (trace st3)) = [(setOn_cb true 1, Samples.ack)] /\
   callbacks st3 = callbacks init ++ [getOn_cb 2; getBrightness_cb 3]) /\
  invocations
    (drop (length (trace (run [Call_getOn 4] st3)))
       (trace (on_message 1 (Json Samples.white) (run [Call_getOn 4] st3))))
  = map (fun cb => (cb, Samples.white)) (callbacks (run [Call_getOn 4] st3)).
Proof.
  destruct getPilot_during_setPilot as (_ & _ & _ & _ & Hdrain & Hwindow).
  cbv zeta. split.
  - destruct (Hwindow init (Call_setOn true 1) (setOn_cb true 1)
                [getOn_cb 2; getBrightness_cb 3] true
                (Json Samples.ack) Samples.ack eq_refl eq_refl)
      as (Hsent & Hserved & Hqueued & _).
    exact (conj Hsent (conj Hserved Hqueued)).
  - match goal with
    | |- invocations (drop _ (trace (on_message _ _ ?later))) = _ =>
        exact (proj1 (Hdrain later 1%nat (createSocket "getPilot" None)
                        (Json Samples.white) Samples.white
                        eq_refl eq_refl eq_refl eq_refl))
    end.
Defined.

End CoalescerClaims.

(** * Discovery *)

Section DiscoveryFacts.
Import Pilot Discovery.

Variable makeWizDevice : string -> IWizPilotResponse -> Device.IWizDevice.
Variable ip : string.

Local Abbreviation step := (Discovery.step makeWizDevice ip).
Local Abbreviation run := (Discovery.run makeWizDevice ip).

Lemma resolve_resolved v st :
  resolved (resolve v st)
  = Some (match resolved st with Some w => w | None => v end).
Proof. unfold resolve. destruct (resolved st) eqn:E; simpl; auto. Qed.

Lemma resolve_frame v st :
  client_open (resolve v st) = client_open st /\
  close_timers (resolve v st) = close_timers st /\
  timer (resolve v st) = timer st /\
  uncaught (resolve v st) = uncaught st.
Proof. unfold resolve. destruct (resolved st); repeat split. Qed.

Lemma resolve_kept v w st :
  resolved st = Some w -> resolved (resolve v st) = Some w.
Proof. intros H. rewrite resolve_resolved, H. reflexivity. Qed.

(** A promise keeps its value; a closed socket stays closed. *)
Lemma step_resolved_stable st e w :
  resolved st = Some w -> resolved (step st e) = Some w.
Proof.
  intros H. destruct e as [message|failed| |]; simpl.
  - unfold on_message. destruct (client_open st); simpl; [|exact H].
    destruct (JSON_parse message) as [deviceInfo|];
      [destruct (method deviceInfo =? "getPilot")%string|];
      apply resolve_kept; exact H.
  - unfold on_send. destruct failed; [|exact H].
    destruct (client_open st); [apply resolve_kept|]; exact H.
  - unfold on_close_timer. destruct (close_timers st); exact H.
  - unfold on_timeout. destruct (timer st); [|exact H].
    apply resolve_kept. exact H.
Qed.

Lemma step_closed_stable st e :
  client_open st = false -> client_open (step st e) = false.
Proof.
  intros H. destruct e as [message|failed| |]; simpl.
  - unfold on_message. rewrite H. exact H.
  - unfold on_send. destruct failed; [|exact H]. rewrite H. reflexivity.
  - unfold on_close_timer. destruct (close_timers st); [exact H|reflexivity].
  - unfold on_timeout. destruct (timer st); [|exact H].
    apply resolve_frame.
Qed.

Lemma step_settled st e : settled st -> settled (step st e).
Proof.
  intros [Hclosed [w Hw]]. split.
  - apply step_closed_stable. exact Hclosed.
  - exists w. apply step_resolved_stable. exact Hw.
Qed.

Lemma run_settled es st : settled st -> settled (run es st).
Proof.
  revert st. induction es as [|e es IH]; intros st H; simpl; [exact H|].
  apply IH, step_settled, H.
Qed.

(** The timeout, when it fires: the socket is released whatever its state,
    inside a [try]; a promise still pending now holds [null]. *)
Lemma on_timeout_armed st ms :
  timer st = Some ms ->
  client_open (on_timeout st) = false /\
  resolved (on_timeout st) = Some (or_null (resolved st)) /\
  uncaught (on_timeout st) = uncaught st /\
  timer (on_timeout st) = None.
Proof.
  intros H. unfold on_timeout. rewrite H.
  rewrite resolve_resolved. repeat split; try apply resolve_frame.
  simpl. destruct (resolved st); reflexivity.
Qed.

(** Only the timeout disarms the timer, and it settles the call. *)
Lemma step_timer st e :
  (timer st = None -> settled st) ->
  timer (step st e) = None -> settled (step st e).
Proof.
  intros Hinv Hnone.
  destruct (timer st) as [ms|] eqn:Htimer.
  - destruct e as [message|failed| |]; simpl in *.
    + unfold on_message in Hnone.
      destruct (client_open st); simpl in Hnone; [|congruence].
      destruct (JSON_parse message) as [deviceInfo|];
        [destruct (method deviceInfo =? "getPilot")%string|];
        unfold resolve in Hnone; destruct (resolved st);
        simpl in Hnone; congruence.
    + unfold on_send in Hnone. destruct failed; [|congruence].
      destruct (client_open st); [|simpl in Hnone; congruence].
      unfold resolve in Hnone. simpl in Hnone.
      destruct (resolved st); simpl in Hnone; congruence.
    + unfold on_close_timer in Hnone.
      destruct (close_timers st); simpl in Hnone; congruence.
    + destruct (on_timeout_armed st ms Htimer) as (Hc & Hr & _ & _).
      split; [exact Hc|]. rewrite Hr. eexists. reflexivity.
  - apply step_settled, Hinv. reflexivity.
Qed.

Lemma run_timer es st :
  (timer st = None -> settled st) ->
  timer (run es st) = None -> settled (run es st).
Proof.
  revert st. induction es as [|e es IH]; intros st Hinv; simpl.
  - exact Hinv.
  - apply IH. apply step_timer. exact Hinv.
Qed.

(** Whatever happened before and whatever happens after, once the timeout
    has fired the promise holds a value and the socket is closed. *)
Lemma timeout_settles timeout_ms pre post :
  settled (run (pre ++ Timeout :: post) (getWizDevice timeout_ms)).
Proof.
  unfold Discovery.run. rewrite fold_left_app. simpl.
  apply run_settled.
  set (st := fold_left step pre (getWizDevice timeout_ms)).
  assert (Hinv : timer st = None -> settled st).
  { apply run_timer. simpl. discriminate. }
  destruct (timer st) as [ms|] eqn:Htimer.
  - destruct (on_timeout_armed st ms Htimer) as (Hc & Hr & _ & _).
    split; [exact Hc|]. rewrite Hr. eexists. reflexivity.
  - unfold on_timeout. rewrite Htimer. apply Hinv. reflexivity.
Qed.

(** With no reply at all the call resolves to [null]. *)
Lemma timeout_alone timeout_ms :
  run [Timeout] (getWizDevice timeout_ms)
  = {| resolved := Some None; client_open := false; close_timers := 0;
       timer := None; uncaught := 0 |}.
Proof. reflexivity. Qed.

(** A reply that is not JSON, or of another method: the promise resolves
    to [null] if it was pending, nothing is thrown, and the close the
    handler schedules releases the socket. *)
Lemma on_message_rejected st message :
  client_open st = true ->
  rejected message = true ->
  resolved (on_message makeWizDevice ip message st)
  = Some (or_null (resolved st)) /\
  uncaught (on_message makeWizDevice ip message st) = uncaught st /\
  close_timers (on_message makeWizDevice ip message st)
  = S (close_timers st) /\
  client_open (on_close_timer (on_message makeWizDevice ip message st))
  = false /\
  uncaught (on_close_timer (on_message makeWizDevice ip message st))
  = uncaught st.
Proof.
  intros Hopen Hrej. unfold on_message, rejected in *. rewrite Hopen. simpl.
  assert (E : (match JSON_parse message with
               | Some deviceInfo =>
                   if (method deviceInfo =? "getPilot")%string
                   then resolve (Some (makeWizDevice ip deviceInfo)) st
                   else resolve None st
               | None => resolve None st
               end) = resolve None st).
  { destruct (JSON_parse message) as [deviceInfo|]; [|reflexivity].
    destruct (method deviceInfo =? "getPilot")%string;
      [discriminate Hrej | reflexivity]. }
  rewrite E. unfold on_close_timer. simpl.
  destruct (resolve_frame None st) as (Ho & Ht & _ & Hu).
  rewrite resolve_resolved, Ho, Ht, Hu, Hopen.
  repeat split.
Qed.

End DiscoveryFacts.

(** * Timeouts and malformed replies: discovery against the accessory *)

Section ExchangeClaims.
Import JS Pilot.

(** C5 (as stated).  A [getOn] whose datagram was sent and whose reply
    never arrives: [request] armed no timer, so as long as no datagram
    arrives (and no send fails) HomeKit's callback is never called and the
    socket stays open. *)
Lemma request_has_no_timeout :
  let st := Light.run [Light.Call_getOn 7; Light.SendDone 0 false]
              Light.init in
  Light.trace st = [Light.Sent 0 "getPilot" Light.NoParams] /\
  Light.sockets st = [Light.createSocket "getPilot" None] /\
  (forall es,
     forallb Light.quiet es = true ->
     Light.deliveries (Light.trace (Light.run es st)) = [] /\
     Light.sockets (Light.run es st) !! 0%nat
     = Some (Light.createSocket "getPilot" None)).
Proof.
  cbv zeta. split; [reflexivity|]. split; [reflexivity|].
  intros es Hes.
  set (st := Light.run [Light.Call_getOn 7; Light.SendDone 0 false]
               Light.init).
  split.
  - destruct (run_trace_without_message es st (quiet_not_message es Hes))
      as (l & Hl & _ & Hdel).
    rewrite Hl. unfold Light.deliveries in *. rewrite omap_app, Hdel.
    reflexivity.
  - apply run_quiet_socket; [exact Hes | reflexivity..].
Qed.

(** C5 (amended).  Every discovery exchange carries a timeout: the three
    [getWizDevice] arm one (1000, 500 and 5000 ms); when it fires the
    socket is closed and a promise still pending resolves to [null], and
    in every run in which it has fired the promise is resolved and the
    socket closed.  The accessory's [request] carries none: while no
    datagram arrives and no send fails, no callback is applied, nothing is
    delivered to HomeKit, and an open socket stays open. *)
Theorem timeout_settles_discovery_only :
  (forall ip,
     Discovery.timer (Platform.getWizDevice ip) = Some 1000 /\
     Discovery.timer (TestClass.getWizDevice ip) = Some 500 /\
     Discovery.timer (HardcodedPlatform.getWizDevice ip) = Some 5000) /\
  (forall st ms,
     Discovery.timer st = Some ms ->
     Discovery.client_open (Discovery.on_timeout st) = false /\
     Discovery.resolved (Discovery.on_timeout st)
     = Some (Discovery.or_null (Discovery.resolved st)) /\
     Discovery.uncaught (Discovery.on_timeout st) = Discovery.uncaught st) /\
  (forall makeWizDevice ip timeout_ms pre post,
     Discovery.settled
       (Discovery.run makeWizDevice ip (pre ++ Discovery.Timeout :: post)
          (Discovery.getWizDevice timeout_ms))) /\
  (forall st es client sk,
     forallb Light.quiet es = true ->
     Light.sockets st !! client = Some sk ->
     Light.sk_open sk = true ->
     Light.sk_close_timers sk = 0%nat ->
     (exists l, Light.trace (Light.run es st) = Light.trace st ++ l /\
                Light.silent l) /\
     Light.sockets (Light.run es st) !! client = Some sk).
Proof.
  split; [repeat split|].
  split.
  { intros st ms H.
    destruct (on_timeout_armed st ms H) as (Hc & Hr & Hu & _). auto. }
  split; [exact timeout_settles|].
  intros st es client sk Hes Hsk Hopen Htimers. split.
  - apply run_trace_without_message, quiet_not_message, Hes.
  - apply run_quiet_socket; assumption.
Qed.

Lemma timeout_settles_discovery_only_witness :
  Discovery.settled
    (Platform.run "192.168.1.144"
       ([Discovery.SendDone false] ++ Discovery.Timeout :: [])
       (Platform.getWizDevice "192.168.1.144")) /\
  Light.sockets
    (Light.run [Light.SendDone 0 false; Light.Call_getBrightness 8]
       (Light.getOn 7 Light.init)) !! 0%nat
  = Some (Light.createSocket "getPilot" None).
Proof.
  destruct timeout_settles_discovery_only as (_ & _ & Hdisc & Hlight).
  split.
  - apply (Hdisc Platform.makeWizDevice "192.168.1.144"%string
             Platform.timeout_ms [Discovery.SendDone false] []).
  - apply (Hlight (Light.getOn 7 Light.init)
             [Light.SendDone 0 false; Light.Call_getBrightness 8]
             0%nat (Light.createSocket "getPilot" None));
      reflexivity.
Defined.

(** C6 (as stated).  In the accessory, text that is not JSON makes the
    message handler throw: the [SyntaxError] is caught by nobody, the
    callback stays queued, and no close is scheduled for the socket.  A
    reply of another method is not turned down: the queued callback is
    applied to it. *)
Lemma request_raises_on_garbage :
  let st := Light.run [Light.Call_getOn 7;
                       Light.Message 0 (NotJson "garbage")] Light.init in
  Light.trace st = [Light.Sent 0 "getPilot" Light.NoParams;
                    Light.Uncaught Light.SyntaxError] /\
  Light.callbacks st = [Light.getOn_cb 7] /\
  Light.sockets st
  = [{| Light.sk_method := "getPilot"; Light.sk_callback := None;
        Light.sk_open := true; Light.sk_answered := true;
        Light.sk_close_timers := 0 |}] /\
  Light.invocations
    (Light.trace
       (Light.run [Light.Call_getOn 7; Light.Message 0 (Json Samples.ack)]
          Light.init))
  = [(Light.getOn_cb 7, Samples.ack)].
Proof. cbv zeta. repeat split. Qed.

(** C6 (amended).  In discovery, a reply that fails to parse or whose
    method is not [getPilot] resolves the promise to [null] (if it was
    pending), throws nothing, and schedules the close that releases the
    socket.  In the accessory's [request], a reply that fails to parse
    clears the flag and throws, and the method of a reply that parses is
    not looked at: the callbacks are applied to it. *)
Theorem rejected_reply_absent_in_discovery :
  (forall makeWizDevice ip st message,
     Discovery.client_open st = true ->
     Discovery.rejected message = true ->
     let st' := Discovery.on_message makeWizDevice ip message st in
     Discovery.resolved st' = Some (Discovery.or_null (Discovery.resolved st))
     /\ Discovery.uncaught st' = Discovery.uncaught st
     /\ Discovery.close_timers st' = S (Discovery.close_timers st)
     /\ Discovery.client_open (Discovery.on_close_timer st') = false
     /\ Discovery.uncaught (Discovery.on_close_timer st')
        = Discovery.uncaught st) /\
  (forall st client sk message,
     Light.sockets st !! client = Some sk ->
     Light.sk_open sk = true ->
     JSON_parse message = None ->
     let st' := Light.on_message client message st in
     Light.trace st' = Light.trace st ++ [Light.Uncaught Light.SyntaxError]
     /\ Light.callbacks st' = Light.callbacks st
     /\ Light.pendingRequest st' = false
     /\ exists sk', Light.sockets st' !! client = Some sk' /\
                    Light.sk_open sk' = true /\
                    Light.sk_close_timers sk' = Light.sk_close_timers sk) /\
  (forall st client sk message response,
     Light.sockets st !! client = Some sk ->
     Light.sk_open sk = true ->
     JSON_parse message = Some response ->
     (method response =? Light.sk_method sk)%string = false ->
     Light.trace (Light.on_message client message st)
     = Light.trace st ++
       match Light.sk_callback sk with
       | Some own => Light.invoke_effects response own
       | None =>
           concat (map (Light.invoke_effects response) (Light.callbacks st))
       end).
Proof.
  split; [exact on_message_rejected|]. split.
  - intros st client sk message Hsk Hopen Hparse st'. unfold st'.
    rewrite (on_message_not_json st client sk message Hsk Hopen Hparse).
    simpl. repeat split. eexists.
    split; [apply list_lookup_insert_eq, (lookup_lt_Some _ _ _ Hsk)|].
    split; reflexivity.
  - intros st client sk message response Hsk Hopen Hparse _.
    destruct (Light.sk_callback sk) as [own|] eqn:Hcb.
    + apply (on_message_own st client sk own message response); assumption.
    + apply (on_message_queue st client sk message response); assumption.
Qed.

Lemma rejected_reply_absent_in_discovery_witness :
  Discovery.resolved
    (Discovery.on_message Platform.makeWizDevice "192.168.1.144"
       (NotJson "garbage") (Platform.getWizDevice "192.168.1.144"))
  = Some None /\
  Discovery.resolved
    (Discovery.on_message Platform.makeWizDevice "192.168.1.144"
       (Json Samples.ack) (Platform.getWizDevice "192.168.1.144"))
  = Some None /\
  Light.trace
    (Light.on_message 0 (NotJson "garbage") (Light.getOn 7 Light.init))
  = Light.trace (Light.getOn 7 Light.init)
    ++ [Light.Uncaught Light.SyntaxError].
Proof.
  destruct rejected_reply_absent_in_discovery as (Hdisc & Hthrow & _).
  split; [|split].
  - apply (Hdisc Platform.makeWizDevice "192.168.1.144"%string
             (Platform.getWizDevice "192.168.1.144") (NotJson "garbage"));
      reflexivity.
  - apply (Hdisc Platform.makeWizDevice "192.168.1.144"%string
             (Platform.getWizDevice "192.168.1.144") (Json Samples.ack));
      reflexivity.
  - apply (Hthrow (Light.getOn 7 Light.init) 0%nat
             (Light.createSocket "getPilot" None) (NotJson "garbage"));
      reflexivity.
Defined.

End ExchangeClaims.

(** * Device classification *)

Section Classification.
Import JS Pilot.

Lemma truthy_spec (field : option Z) :
  truthy field = true <-> exists z, field = Some z /\ z <> 0.
Proof.
  destruct field as [z|]; simpl.
  - rewrite negb_true_iff, Z.eqb_neq. split.
    + intros H. exists z. split; [reflexivity | exact H].
    + intros (z' & [= <-] & H). exact H.
  - split; [discriminate|]. intros (z & H & _). discriminate H.
Qed.

Lemma falsy_spec (field : option Z) :
  truthy field = false <-> field = None \/ field = Some 0.
Proof.
  destruct field as [z|]; simpl.
  - rewrite negb_false_iff, Z.eqb_eq. split.
    + intros ->. right. reflexivity.
    + intros [H|[= ->]]; [discriminate H | reflexivity].
  - split; auto.
Qed.

(** The type [makeWizDevice] of [src/platform.ts] gives a reply. *)
Lemma makeWizDevice_type ip info :
  Device.type (Platform.makeWizDevice ip info)
  = if negb (truthy (dimming (result info))) then Device.SWITCH
    else if truthy (temp (result info)) then Device.WHITE_LIGHT
    else Device.RGB_LIGHT.
Proof.
  unfold Platform.makeWizDevice.
  destruct (truthy (dimming (result info)));
    destruct (truthy (temp (result info))); reflexivity.
Qed.

Lemma TestClass_makeWizDevice_same ip info :
  TestClass.makeWizDevice ip info = Platform.makeWizDevice ip info.
Proof. reflexivity. Qed.

(** C7 (as stated).  A reply with [dimming: 0] and [temp: 2700] has both
    fields and is a switch; one with [dimming: 50] and [temp: 0] has both
    and is an RGB light; and the platform over the hard-coded list makes
    the reply without [dimming] a white light. *)
Lemma present_fields_not_white_light :
  Device.type
    (Platform.makeWizDevice "192.168.1.144"
       (Samples.bulb "getPilot" (Some 2700) (Some 0)))
  = Device.SWITCH /\
  Device.type
    (Platform.makeWizDevice "192.168.1.144"
       (Samples.bulb "getPilot" (Some 0) (Some 50)))
  = Device.RGB_LIGHT /\
  Device.type (HardcodedPlatform.makeWizDevice "192.168.1.144" Samples.plug)
  = Device.WHITE_LIGHT /\
  ~ (forall ip info d t,
       dimming (result info) = Some d ->
       temp (result info) = Some t ->
       Device.type (Platform.makeWizDevice ip info) = Device.WHITE_LIGHT).
Proof.
  repeat split. intros H.
  specialize (H "192.168.1.144"%string
                (Samples.bulb "getPilot" (Some 2700) (Some 0))
                0 2700 eq_refl eq_refl).
  discriminate H.
Qed.

(** C7 (amended).  In [src/platform.ts] and in [TestClass]: a reply whose
    [dimming] is absent or 0 is a switch; one whose [dimming] and [temp]
    are both present and not 0 is a white light; one whose [dimming] is
    present and not 0 and whose [temp] is absent or 0 is an RGB light.  The
    platform over the hard-coded list makes every reply a white light. *)
Theorem classification_by_truthiness (ip : string) (info : IWizPilotResponse) :
  let d := dimming (result info) in
  let t := temp (result info) in
  let type := Device.type (Platform.makeWizDevice ip info) in
  ((d = None \/ d = Some 0) -> type = Device.SWITCH) /\
  ((exists x, d = Some x /\ x <> 0) ->
   (exists y, t = Some y /\ y <> 0) -> type = Device.WHITE_LIGHT) /\
  ((exists x, d = Some x /\ x <> 0) ->
   (t = None \/ t = Some 0) -> type = Device.RGB_LIGHT) /\
  Device.type (TestClass.makeWizDevice ip info) = type /\
  Device.type (HardcodedPlatform.makeWizDevice ip info) = Device.WHITE_LIGHT.
Proof.
  intros d t type. unfold type. rewrite makeWizDevice_type. fold d t.
  split; [|split; [|split; [|split; [|reflexivity]]]].
  - intros Hd. apply falsy_spec in Hd. rewrite Hd. reflexivity.
  - intros Hd Ht. apply truthy_spec in Hd, Ht. rewrite Hd, Ht. reflexivity.
  - intros Hd Ht. apply truthy_spec in Hd. apply falsy_spec in Ht.
    rewrite Hd, Ht. reflexivity.
  - exact (makeWizDevice_type ip info).
Qed.

(** The three replies of the specification: [{dimming: 50, temp: 2700}],
    [{dimming: 80}] and [{}]. *)
Lemma classification_by_truthiness_witness :
  Device.type (Platform.makeWizDevice "192.168.1.144" Samples.white)
  = Device.WHITE_LIGHT /\
  Device.type (Platform.makeWizDevice "192.168.1.144" Samples.colour)
  = Device.RGB_LIGHT /\
  Device.type (Platform.makeWizDevice "192.168.1.144" Samples.plug)
  = Device.SWITCH.
Proof.
  destruct (classification_by_truthiness "192.168.1.144" Samples.white)
    as (_ & Hwhite & _).
  destruct (classification_by_truthiness "192.168.1.144" Samples.colour)
    as (_ & _ & Hcolour & _).
  destruct (classification_by_truthiness "192.168.1.144" Samples.plug)
    as (Hplug & _).
  split; [|split].
  - apply Hwhite.
    + exists 50. split; [reflexivity | discriminate].
    + exists 2700. split; [reflexivity | discriminate].
  - apply Hcolour.
    + exists 80. split; [reflexivity | discriminate].
    + left. reflexivity.
  - apply Hplug. left. reflexivity.
Defined.

(** C9.  Classification tests the truthiness of the optional fields, not
    their presence: with [dimming] equal to 0 the device is a switch, and
    with [dimming] not 0 and [temp] equal to 0 it is an RGB light, in
    [src/platform.ts] and in [TestClass] alike. *)
Theorem classification_tests_truthiness
  (ip : string) (info : IWizPilotResponse) :
  (dimming (result info) = Some 0 ->
   Device.type (Platform.makeWizDevice ip info) = Device.SWITCH /\
   Device.type (TestClass.makeWizDevice ip info) = Device.SWITCH) /\
  (forall x, dimming (result info) = Some x -> x <> 0 ->
   temp (result info) = Some 0 ->
   Device.type (Platform.makeWizDevice ip info) = Device.RGB_LIGHT /\
   Device.type (TestClass.makeWizDevice ip info) = Device.RGB_LIGHT).
Proof.
  unfold Platform.makeWizDevice, TestClass.makeWizDevice. split.
  - intros ->. split; reflexivity.
  - intros x -> Hx ->. simpl.
    apply Z.eqb_neq in Hx. rewrite Hx. split; reflexivity.
Qed.

Lemma classification_tests_truthiness_witness :
  Device.type
    (Platform.makeWizDevice "192.168.1.144"
       (Samples.bulb "getPilot" (Some 2700) (Some 0)))
  = Device.SWITCH /\
  Device.type
    (TestClass.makeWizDevice "192.168.1.144"
       (Samples.bulb "getPilot" (Some 0) (Some 50)))
  = Device.RGB_LIGHT.
Proof.
  split.
  - apply (proj1 (classification_tests_truthiness "192.168.1.144"
                    (Samples.bulb "getPilot" (Some 2700) (Some 0)))).
    reflexivity.
  - apply (proj2 (classification_tests_truthiness "192.168.1.144"
                    (Samples.bulb "getPilot" (Some 0) (Some 50))) 50);
      [reflexivity | discriminate | reflexivity].
Defined.

End Classification.

(** * The temperature a getter delivers *)

Section Temperature.
Import JS Pilot.

(** In the coalescing accessory a reply without [temp] delivers 500 and
    stores it. *)
Lemma getTemperature_default k response st :
  temp (result response) = None ->
  Light.trace (Light.invoke (Light.getTemperature_cb k) response st)
  = Light.trace st ++
    [Light.Invoked (Light.getTemperature_cb k) response;
     Light.Delivered k (Some (Light.VNum (Num 500)))] /\
  Light.Temperature
    (Light.currentState (Light.invoke (Light.getTemperature_cb k) response st))
  = Num 500.
Proof.
  intros H. unfold Light.invoke. simpl. rewrite H. simpl.
  rewrite <- app_assoc. split; reflexivity.
Qed.

Lemma getTemperature_default_witness :
  Light.deliveries
    (Light.trace
       (Light.invoke (Light.getTemperature_cb 3) Samples.plug Light.init))
  = [(3%nat, Some (Light.VNum (Num 500)))].
Proof.
  rewrite (proj1 (getTemperature_default 3%nat Samples.plug Light.init eq_refl)).
  reflexivity.
Defined.

(** What it delivers is never [NaN]. *)
Lemma getTemperature_never_NaN k response :
  exists z, Light.delivery (Light.getTemperature_cb k) response
            = (k, Some (Light.VNum (Num z))).
Proof.
  unfold Light.delivery.
  destruct (temp (result response)) as [z|]; simpl; eexists; reflexivity.
Qed.

(** C8 (code bug).  [getTemperature] of [src/platformAccessory.ts] has no
    [isNaN] test: on a reply without [temp], [parseInt] gives [NaN],
    [calvinToTemp] keeps it, and [NaN] is stored and handed to HomeKit. *)
Theorem legacy_getTemperature_delivers_NaN
  (response : IWizPilotResponse) (cs : LegacyLight.CurrentState) :
  temp (result response) = None ->
  LegacyLight.getTemperature_cb response cs
  = ({| LegacyLight.On := LegacyLight.On cs;
        LegacyLight.Brightness := LegacyLight.Brightness cs;
        LegacyLight.Temperature := NaN |}, NaN).
Proof.
  intros Habsent. unfold LegacyLight.getTemperature_cb.
  rewrite Habsent. reflexivity.
Qed.

Lemma legacy_getTemperature_delivers_NaN_witness :
  snd (LegacyLight.getTemperature_cb Samples.plug
         {| LegacyLight.On := false; LegacyLight.Brightness := 100;
            LegacyLight.Temperature := Num 140 |})
  = NaN.
Proof.
  rewrite (legacy_getTemperature_delivers_NaN Samples.plug _ eq_refl).
  reflexivity.
Defined.

End Temperature.

(** * More on the temperature mapper *)

Section MapperRange.
Import JS.

(** The mapper does not clamp: [calvinToTemp] lands in HomeKit's range
    [140, 500] for the readings 2695 K to 6505 K and for no other, and
    [tempToCalvin] lands in [2700, 6500] for the units 140 to 500 and for
    no other. *)
Theorem mapper_range (z : Z) :
  (in_range 140 500 (Light.calvinToTemp (Num z)) <-> 2695 <= z <= 6505) /\
  (in_range 2700 6500 (Light.tempToCalvin (Num z)) <-> 140 <= z <= 500).
Proof.
  rewrite calvinToTemp_div, tempToCalvin_div. unfold in_range.
  split; split; intros H; Z.to_euclidean_division_equations; lia.
Qed.

(** Both directions turn the order around: a warmer light (fewer Kelvin)
    is a larger unit. *)
Theorem mapper_antitone (a b : Z) :
  a <= b ->
  num_le (Light.calvinToTemp (Num b)) (Light.calvinToTemp (Num a)) /\
  num_le (Light.tempToCalvin (Num b)) (Light.tempToCalvin (Num a)).
Proof.
  intros Hab. rewrite !calvinToTemp_div, !tempToCalvin_div. unfold num_le.
  split; Z.to_euclidean_division_equations; lia.
Qed.

Lemma mapper_antitone_witness :
  num_le (Light.calvinToTemp (Num 6500)) (Light.calvinToTemp (Num 2700)) /\
  num_le (Light.tempToCalvin (Num 500)) (Light.tempToCalvin (Num 140)).
Proof. apply (mapper_antitone 140 500). lia. Defined.

(** In [src/platformAccessory.ts] a unit sent to the bulb and read back
    comes out mirrored in the range: [u] becomes [640 - u]. *)
Theorem legacy_round_trip_mirrors (u : Z) :
  140 <= u <= 500 ->
  LegacyLight.calvinToTemp (LegacyLight.tempToCalvin (Num u))
  = Num (640 - u).
Proof.
  intros Hu. rewrite legacy_tempToCalvin_same, tempToCalvin_div,
    legacy_calvinToTemp_div. f_equal.
  Z.to_euclidean_division_equations. lia.
Qed.

Lemma legacy_round_trip_mirrors_witness :
  LegacyLight.calvinToTemp (LegacyLight.tempToCalvin (Num 200)) = Num 440.
Proof. apply (legacy_round_trip_mirrors 200). lia. Defined.

End MapperRange.

(** * More on the accessory *)

Section AccessoryFacts.
Import JS Pilot Light LightEvents.

(** ** Setting a value and reading it back *)

(** A bulb that reports what it was sent: the three getters hand HomeKit
    what the three setters were given, a temperature as long as it lies in
    [140, 500]. *)
Theorem set_then_get_echo
  (st : light) (on : bool) (brightness unit : Z) (k k' : hk)
  (response : IWizPilotResponse) :
  140 <= unit <= 500 ->
  let client := length (sockets st) in
  exists kelvin : Z,
    (trace (setOn on k st)
     = trace st ++ [Sent client "setPilot" (StateParam on)] /\
     trace (setBrightness brightness k st)
     = trace st ++ [Sent client "setPilot" (DimmingParam brightness)] /\
     trace (setTemperature unit k st)
     = trace st ++ [Sent client "setPilot" (TempParam (Num kelvin))]) /\
    (state (result response) = on ->
     delivery (getOn_cb k') response = (k', Some (VBool on))) /\
    (dimming (result response) = Some brightness ->
     delivery (getBrightness_cb k') response
     = (k', Some (VNum (Num brightness)))) /\
    (temp (result response) = Some kelvin ->
     delivery (getTemperature_cb k') response
     = (k', Some (VNum (Num unit)))).
Proof.
  intros Hunit client.
  exists ((143609 - 190 * unit) / 18).
  split; [|split; [|split]].
  - split; [reflexivity|]. split; [reflexivity|].
    unfold setTemperature. rewrite request_trace.
    cbn [trace sockets currentState set_currentState Temperature].
    rewrite tempToCalvin_div. reflexivity.
  - intros <-. reflexivity.
  - intros H. unfold delivery. rewrite H. reflexivity.
  - intros H. unfold delivery. rewrite H. simpl parseInt.
    rewrite <- tempToCalvin_div, (unit_round_trip unit Hunit).
    reflexivity.
Qed.

Lemma set_then_get_echo_witness :
  exists kelvin : Z,
    trace (setTemperature 300 1 init)
    = [Sent 0 "setPilot" (TempParam (Num kelvin))] /\
    delivery (getTemperature_cb 2)
      (Samples.bulb "getPilot" (Some kelvin) (Some 50))
    = (2%nat, Some (VNum (Num 300))).
Proof.
  destruct (set_then_get_echo init true 50 300 1%nat 2%nat
              (Samples.bulb "getPilot" (Some 4811) (Some 50))
              ltac:(lia))
    as (kelvin & (_ & _ & Hsent) & _ & _ & Hget).
  exists kelvin. split; [exact Hsent|].
  assert (Hk : kelvin = 4811).
  { change (trace init ++ ?l) with l in Hsent.
    vm_compute in Hsent. congruence. }
  subst kelvin. exact (Hget eq_refl).
Defined.

(** ** Set handlers are never coalesced *)

Lemma set_step_sends st e p :
  set_params_of e = Some p ->
  trace (step st e) = trace st ++ [Sent (length (sockets st)) "setPilot" p]
  /\ callbacks (step st e) = callbacks st
  /\ length (sockets (step st e)) = S (length (sockets st))
  /\ pendingRequest (step st e) = true.
Proof.
  intros Hp. destruct e; simpl in Hp; try discriminate Hp;
    injection Hp as <-; simpl; rewrite length_app; simpl;
    repeat split; lia.
Qed.

Lemma datagrams_imap_Sent (ps : list params) (n : nat) :
  datagrams (imap (fun i p => Sent (n + i) "setPilot" p) ps)
  = imap (fun i p => ((n + i)%nat, "setPilot"%string, p)) ps.
Proof.
  revert n. induction ps as [|p ps IH]; intros n; [reflexivity|].
  rewrite !imap_cons. unfold datagrams in *. simpl. f_equal.
  rewrite (imap_ext _ (fun i p => Sent (S n + i) "setPilot" p) ps)
    by (intros; unfold compose; f_equal; lia).
  rewrite (imap_ext (_ ∘ S)
             (fun i p => ((S n + i)%nat, "setPilot"%string, p)) ps)
    by (intros; unfold compose; do 2 f_equal; lia).
  apply IH.
Qed.

Lemma run_set_calls_trace (es : list event) (st : light) :
  Forall (fun e => is_Some (set_params_of e)) es ->
  trace (run es st)
  = trace st ++
    imap (fun i p => Sent (length (sockets st) + i) "setPilot" p)
      (omap set_params_of es)
  /\ callbacks (run es st) = callbacks st
  /\ length (sockets (run es st)) = (length (sockets st) + length es)%nat.
Proof.
  intros Hes. revert st.
  induction Hes as [|e es [p Hp] _ IH]; intros st.
  - simpl. rewrite app_nil_r, Nat.add_0_r. repeat split.
  - destruct (set_step_sends st e p Hp) as (Ht & Hq & Hl & _).
    destruct (IH (step st e)) as (Ht' & Hq' & Hl').
    change (run (e :: es) st) with (run es (step st e)).
    rewrite Ht', Ht, Hq', Hq, Hl', Hl, <- app_assoc.
    cbn [omap list_omap]. rewrite Hp. rewrite imap_cons.
    split; [|split; [reflexivity | simpl; lia]].
    f_equal. simpl. rewrite Nat.add_0_r. f_equal.
    apply imap_ext. intros i x _. unfold compose. f_equal. lia.
Qed.

(** Whatever the flag says, every set handler sends a datagram of its own
    on a socket of its own, in call order, and leaves the queue alone. *)
Theorem set_calls_each_send (es : list event) (st : light) :
  Forall (fun e => is_Some (set_params_of e)) es ->
  datagrams (drop (length (trace st)) (trace (run es st)))
  = imap (fun i p => ((length (sockets st) + i)%nat, "setPilot"%string, p))
      (omap set_params_of es) /\
  callbacks (run es st) = callbacks st /\
  length (sockets (run es st)) = (length (sockets st) + length es)%nat.
Proof.
  intros Hes.
  destruct (run_set_calls_trace es st Hes) as (Ht & Hq & Hl).
  rewrite Ht, drop_app_length, datagrams_imap_Sent. auto.
Qed.

Lemma set_calls_each_send_witness :
  datagrams
    (trace (run [Call_setOn true 1; Call_setBrightness 40 2]
              (getOn 0 init)))
  = [(0%nat, "getPilot"%string, NoParams);
     (1%nat, "setPilot"%string, StateParam true);
     (2%nat, "setPilot"%string, DimmingParam 40)].
Proof.
  pose proof (proj1 (set_calls_each_send
                       [Call_setOn true 1; Call_setBrightness 40 2]
                       (getOn 0 init)
                       ltac:(repeat constructor; eexists; reflexivity)))
    as H.
  change (trace (getOn 0 init)) with [Sent 0 "getPilot" NoParams] in H.
  rewrite <- (take_drop 1
                (trace (run [Call_setOn true 1; Call_setBrightness 40 2]
                          (getOn 0 init)))).
  unfold datagrams in *. rewrite omap_app.
  change (length [Sent 0 "getPilot" NoParams]) with 1%nat in H.
  rewrite H. reflexivity.
Defined.

End AccessoryFacts.

(** * No callback lost, none served twice *)

Section QueueConservation.
Import JS Pilot Light LightEvents.

Lemma queue_only_insert st client sk sk' :
  queue_only st ->
  sockets st !! client = Some sk ->
  sk_callback sk' = sk_callback sk ->
  Forall (fun sk => sk_callback sk = None) (<[client := sk']> (sockets st)).
Proof.
  intros Hq Hsk Hcb. apply Forall_insert; [exact Hq|].
  rewrite Hcb. exact (proj1 (Forall_lookup _ _) Hq client sk Hsk).
Qed.

Lemma close_queue_only client st :
  queue_only st -> queue_only (close client st).
Proof.
  intros Hq. unfold close.
  destruct (sockets st !! client) as [sk|] eqn:Hsk; [|exact Hq].
  destruct (sk_open sk); [|exact Hq].
  unfold queue_only. simpl.
  apply (queue_only_insert st client sk); [exact Hq | exact Hsk | reflexivity].
Qed.

Lemma getPilot_queue_only cb st :
  queue_only st -> queue_only (getPilot cb st).
Proof.
  intros Hq. unfold getPilot, queue_only. simpl.
  destruct (pendingRequest st); simpl; [exact Hq|].
  apply Forall_app. split; [exact Hq|]. repeat constructor.
Qed.

(** One step of a run without set handlers: what it applies, and what it
    leaves queued, is what was queued and what the step queues. *)
Lemma step_conserves st e :
  queue_only st ->
  set_callback_of e = None ->
  exists l,
    trace (step st e) = trace st ++ l /\
    map fst (invocations l) ++ callbacks (step st e)
    = callbacks st ++ option_list (queued_by e) /\
    queue_only (step st e).
Proof.
  intros Hq Hset.
  assert (Hget : forall cb,
            exists l, trace (getPilot cb st) = trace st ++ l /\
              map fst (invocations l) ++ callbacks (getPilot cb st)
              = callbacks st ++ [cb] /\
              queue_only (getPilot cb st)).
  { intros cb. destruct (getPilot_trace cb st) as (l & Hl & Hinv & _).
    exists l. rewrite Hinv, getPilot_callbacks.
    auto using getPilot_queue_only. }
  destruct e as [v k|k|v k|k|v k|k|cb|client failed|client message|client];
    simpl in Hset; try discriminate Hset; simpl; try apply Hget.
  - destruct (on_send_trace client failed st) as (l & Hl & Hinv & _).
    exists l. rewrite Hinv, on_send_callbacks, app_nil_r.
    split; [exact Hl|]. split; [reflexivity|].
    unfold on_send. destruct (sockets st !! client) as [sk|]; [|exact Hq].
    destruct failed; [|exact Hq].
    destruct (sk_open sk);
      exact (close_queue_only client (set_pendingRequest false st) Hq).
  - unfold on_message.
    destruct (sockets st !! client) as [sk|] eqn:Hsk;
      [|exists []; rewrite !app_nil_r; auto].
    destruct (sk_open sk) eqn:Hopen; simpl;
      [|exists []; rewrite !app_nil_r; auto].
    assert (Hcb : sk_callback sk = None)
      by exact (proj1 (Forall_lookup _ _) Hq client sk Hsk).
    destruct (JSON_parse message) as [response|] eqn:Hparse.
    + rewrite Hcb. simpl.
      exists (concat (map (invoke_effects response) (callbacks st))).
      rewrite forEach_trace. split; [reflexivity|].
      rewrite invocations_fan_out, map_map. simpl. rewrite map_id.
      rewrite !app_nil_r. split; [reflexivity|].
      unfold queue_only. simpl.
      match goal with
      | |- context [forEach ?c ?r ?s] =>
          destruct (forEach_frame c r s) as (_ & _ & Hs)
      end.
      rewrite Hs. simpl.
      apply Forall_insert; [|reflexivity].
      apply Forall_insert; [exact Hq | reflexivity].
    + exists [Uncaught SyntaxError]. simpl. rewrite !app_nil_r.
      split; [reflexivity|]. split; [reflexivity|].
      unfold queue_only. simpl.
      apply (queue_only_insert st client sk);
        [exact Hq | exact Hsk | reflexivity].
  - destruct (on_close_timer_trace client st) as (l & Hl & Hinv & _).
    exists l. rewrite Hinv, on_close_timer_callbacks, app_nil_r.
    split; [exact Hl|]. split; [reflexivity|].
    unfold on_close_timer.
    destruct (sockets st !! client) as [sk|] eqn:Hsk; [|exact Hq].
    destruct (sk_close_timers sk); [exact Hq|].
    apply close_queue_only. unfold queue_only. simpl.
    apply (queue_only_insert st client sk);
      [exact Hq | exact Hsk | reflexivity].
Qed.

(** In a run without set handlers, from a state all of whose sockets
    [getPilot] created: the callbacks applied during the run, in the order
    they were applied, followed by the callbacks still queued, are the
    callbacks that were queued followed by those the run handed to
    [getPilot], in call order.  So none is lost, none is applied twice,
    and they are served first come, first served, whichever reply serves
    them. *)
Theorem getPilot_callbacks_conserved (es : list event) (st : light) :
  queue_only st ->
  Forall (fun e => set_callback_of e = None) es ->
  map fst (invocations (drop (length (trace st)) (trace (run es st))))
    ++ callbacks (run es st)
  = callbacks st ++ omap queued_by es.
Proof.
  intros Hq Hes.
  assert (H : exists l,
            trace (run es st) = trace st ++ l /\
            map fst (invocations l) ++ callbacks (run es st)
            = callbacks st ++ omap queued_by es).
  { revert st Hq. induction Hes as [|e es He _ IH]; intros st Hq; simpl.
    - exists []. rewrite !app_nil_r. auto.
    - destruct (step_conserves st e Hq He) as (l1 & Ht1 & Hc1 & Hq1).
      destruct (IH (step st e) Hq1) as (l2 & Ht2 & Hc2).
      exists (l1 ++ l2). unfold run in *.
      rewrite Ht2, Ht1, <- app_assoc. split; [reflexivity|].
      unfold invocations in *. rewrite omap_app, map_app, <- app_assoc.
      rewrite Hc2, app_assoc, Hc1, <- app_assoc.
      destruct (queued_by e); reflexivity. }
  destruct H as (l & Ht & Hc). rewrite Ht, drop_app_length. exact Hc.
Qed.

(** Two getters, the send completing, a third getter sending a datagram
    of its own, and the reply to the second datagram arriving first: it
    serves all three callbacks, in call order, and the reply to the first
    datagram then finds the queue empty. *)
Lemma getPilot_callbacks_conserved_witness :
  let es := [Call_getOn 1; Call_getBrightness 2; SendDone 0 false;
             Call_getTemperature 3; Message 1 (Json Samples.white);
             Message 0 (Json Samples.colour)] in
  map fst (invocations (drop (length (trace init)) (trace (run es init))))
    ++ callbacks (run es init)
  = callbacks init ++ omap queued_by es.
Proof.
  exact (getPilot_callbacks_conserved
           [Call_getOn 1; Call_getBrightness 2; SendDone 0 false;
            Call_getTemperature 3; Message 1 (Json Samples.white);
            Message 0 (Json Samples.colour)] init
           (Forall_nil_2 _)
           ltac:(repeat constructor)).
Defined.

End QueueConservation.

(** * More on a discovery call *)

Section DiscoveryCalls.
Import Pilot Discovery DiscoveryEvents.

Variable makeWizDevice : string -> IWizPilotResponse -> Device.IWizDevice.
Variable ip : string.
Variable timeout_ms : Z.

Local Abbreviation step := (Discovery.step makeWizDevice ip).
Local Abbreviation run := (Discovery.run makeWizDevice ip).
Local Abbreviation fresh := (Discovery.getWizDevice timeout_ms).

Lemma run_resolved_stable es st w :
  resolved st = Some w -> resolved (run es st) = Some w.
Proof.
  revert st. induction es as [|e es IH]; intros st H; [exact H|].
  apply IH, step_resolved_stable, H.
Qed.

Lemma run_closed_stable es st :
  client_open st = false -> client_open (run es st) = false.
Proof.
  revert st. induction es as [|e es IH]; intros st H; [exact H|].
  apply IH, step_closed_stable, H.
Qed.

Lemma run_send_completed es st :
  forallb send_completed es = true -> run es st = st.
Proof.
  revert st. induction es as [|e es IH]; intros st H; [reflexivity|].
  simpl in H. apply andb_prop in H as [He Hes].
  destruct e as [|[]| |]; try discriminate He. simpl. apply IH, Hes.
Qed.

(** The first datagram to arrive decides.  When it is a [getPilot] reply
    and nothing but the completion of the send came before it, the call
    resolves to the device made from it, and nothing that follows (the
    timeout, other datagrams, a late send error) changes that. *)
Theorem first_reply_decides
  (pre post : list event) (deviceInfo : IWizPilotResponse) :
  forallb send_completed pre = true ->
  method deviceInfo = "getPilot"%string ->
  resolved (run (pre ++ Message (Json deviceInfo) :: post) fresh)
  = Some (Some (makeWizDevice ip deviceInfo)).
Proof.
  intros Hpre Hmethod. unfold Discovery.run.
  rewrite fold_left_app. fold (run pre fresh).
  rewrite (run_send_completed pre fresh Hpre). simpl.
  apply run_resolved_stable.
  unfold on_message. simpl. rewrite Hmethod. reflexivity.
Qed.

(** A call no datagram answers never resolves to a device: it stays as it
    was created until the timeout fires or the send fails, and from then
    on it holds [null] and its socket is closed. *)
Theorem unanswered_call_is_null (es : list event) :
  forallb (fun e => negb (is_message e)) es = true ->
  if existsb gives_up es
  then resolved (run es fresh) = Some None /\
       client_open (run es fresh) = false
  else run es fresh = fresh.
Proof.
  intros Hes.
  assert (Hgone : forall es st,
            resolved st = Some None -> client_open st = false ->
            resolved (run es st) = Some None /\
            client_open (run es st) = false).
  { intros es' st Hr Hc. split.
    - apply run_resolved_stable, Hr.
    - apply run_closed_stable, Hc. }
  induction es as [|e es IH] using rev_ind; [reflexivity|].
  rewrite forallb_app in Hes. apply andb_prop in Hes as [Hes He].
  specialize (IH Hes). rewrite existsb_app.
  unfold Discovery.run in *. rewrite fold_left_app. simpl.
  destruct (existsb gives_up es).
  - destruct IH as [Hr Hc]. simpl.
    exact (Hgone [e] _ Hr Hc).
  - rewrite IH. simpl in He. rewrite andb_true_r in He.
    destruct e as [m|[]| |]; try discriminate He; simpl; auto.
Qed.

(** A discovery call throws only by closing a socket that is already
    closed: through the zero-delay close a reply scheduled, or through a
    send error.  While its socket is open nothing is thrown, and a message
    or the timeout never throws. *)
Theorem discovery_throws_only_on_closed_socket (st : lookup) (e : event) :
  uncaught (step st e) <> uncaught st ->
  client_open st = false /\
  uncaught (step st e) = S (uncaught st) /\
  (e = CloseTimer \/ e = SendDone true).
Proof.
  intros H. destruct e as [m|failed| |]; simpl in *.
  - exfalso. apply H. unfold on_message.
    destruct (client_open st); simpl; [|reflexivity].
    destruct (JSON_parse m) as [d|];
      [destruct (method d =? "getPilot")%string|];
      apply resolve_frame.
  - unfold on_send in *. destruct failed; [|congruence].
    destruct (client_open st) eqn:Hopen.
    + exfalso. apply H.
      rewrite (proj2 (proj2 (proj2 (resolve_frame None (close st))))).
      simpl. rewrite Hopen. reflexivity.
    + simpl. rewrite Hopen. auto.
  - unfold on_close_timer in *.
    destruct (close_timers st); [congruence|]. simpl in *.
    destruct (client_open st); [congruence | auto].
  - exfalso. apply H. unfold on_timeout.
    destruct (timer st); [|reflexivity].
    rewrite (proj2 (proj2 (proj2 (resolve_frame None _)))). reflexivity.
Qed.

End DiscoveryCalls.

Section DiscoveryCallWitnesses.
Import Pilot Discovery DiscoveryEvents.

Lemma first_reply_decides_witness :
  resolved
    (Platform.run "192.168.1.144"
       ([SendDone false] ++ Message (Json Samples.white)
          :: [CloseTimer; Message (NotJson "late"); Timeout])
       (Platform.getWizDevice "192.168.1.144"))
  = Some (Some (Platform.makeWizDevice "192.168.1.144" Samples.white)).
Proof.
  exact (first_reply_decides Platform.makeWizDevice "192.168.1.144"
           Platform.timeout_ms [SendDone false]
           [CloseTimer; Message (NotJson "late"); Timeout]
           Samples.white eq_refl eq_refl).
Defined.

Lemma unanswered_call_is_null_witness :
  resolved
    (Platform.run "192.168.1.73" [SendDone false; Timeout]
       (Platform.getWizDevice "192.168.1.73"))
  = Some None /\
  client_open
    (Platform.run "192.168.1.73" [SendDone false; Timeout]
       (Platform.getWizDevice "192.168.1.73"))
  = false.
Proof.
  exact (unanswered_call_is_null Platform.makeWizDevice "192.168.1.73"
           Platform.timeout_ms [SendDone false; Timeout] eq_refl).
Defined.

(** A reply just before the timeout: the timeout closes the socket, and
    the close the reply scheduled then throws. *)
Lemma discovery_throws_only_on_closed_socket_witness :
  let st := Platform.run "192.168.1.144"
              [Message (Json Samples.white); Timeout]
              (Platform.getWizDevice "192.168.1.144") in
  client_open st = false /\
  uncaught (Discovery.step Platform.makeWizDevice "192.168.1.144" st
              CloseTimer)
  = S (uncaught st).
Proof.
  destruct (discovery_throws_only_on_closed_socket Platform.makeWizDevice
              "192.168.1.144"
              (Platform.run "192.168.1.144"
                 [Message (Json Samples.white); Timeout]
                 (Platform.getWizDevice "192.168.1.144"))
              CloseTimer ltac:(discriminate))
    as (Hclosed & Hthrown & _).
  split; [exact Hclosed | exact Hthrown].
Defined.

End DiscoveryCallWitnesses.

(** * Scanning the candidates *)

Section ScanFacts.
Import Pilot Discovery LocalDevices Homebridge Scan.

Variable makeWizDevice : string -> IWizPilotResponse -> Device.IWizDevice.
Variable timeout_ms : Z.
Variable events : nat -> list event.

Local Abbreviation promise := (Scan.promise makeWizDevice timeout_ms events).
Local Abbreviation await_each :=
  (Scan.await_each makeWizDevice timeout_ms events).
Local Abbreviation promises := (Scan.promises makeWizDevice timeout_ms events).

(** The loop of awaits, from any call number and any lights so far,
    against the promises taken all at once. *)
Lemma await_each_all (devices : list IDevice) (i : nat)
  (lights : list Device.IWizDevice) :
  await_each devices i lights
  = (fun wizDevices : list (option Device.IWizDevice) =>
       lights ++ omap id wizDevices)
      <$> Promise_all (imap (fun j => promise (i + j)) devices).
Proof.
  revert i lights. induction devices as [|device devices IH];
    intros i lights.
  - simpl. rewrite app_nil_r. reflexivity.
  - simpl. rewrite Nat.add_0_r.
    destruct (promise i device) as [wizDevice|]; [|reflexivity]. simpl.
    rewrite IH.
    rewrite (imap_ext (fun j => promise (S i + j))
               ((fun j => promise (i + j)) ∘ S) devices)
      by (intros; unfold compose; f_equal; lia).
    unfold Promise_all.
    destruct (mapM id (imap ((fun j => promise (i + j)) ∘ S) devices))
      as [wizDevices|]; [|reflexivity].
    simpl. destruct wizDevice; simpl; [|reflexivity].
    rewrite <- app_assoc. reflexivity.
Qed.

Lemma await_each_promises (devices : list IDevice) :
  await_each devices 0 []
  = (fun wizDevices : list (option Device.IWizDevice) => omap id wizDevices)
      <$> Promise_all (promises devices).
Proof. exact (await_each_all devices 0 []). Qed.

Lemma Promise_all_length {A : Type} (ps : list (option A)) (xs : list A) :
  Promise_all ps = Some xs -> length xs = length ps.
Proof.
  unfold Promise_all. revert xs. induction ps as [|p ps IH]; intros xs H.
  - injection H as <-. reflexivity.
  - simpl in H. destruct p as [x|]; [|discriminate H]. simpl in H.
    destruct (mapM id ps) as [ys|]; [|discriminate H].
    injection H as <-. simpl. f_equal. apply IH. reflexivity.
Qed.

Lemma Promise_all_resolved {A : Type} (ps : list (option A)) :
  Forall is_Some ps -> is_Some (Promise_all ps).
Proof.
  unfold Promise_all. induction 1 as [|p ps [x ->] _ [xs IH]]; simpl.
  - eexists. reflexivity.
  - rewrite IH. eexists. reflexivity.
Qed.

(** Sorting the outcomes: the index never leaves the list of candidates,
    every outcome goes to the lights or to the console, and the lights
    keep their order. *)
Lemma forEach_wizDevice_sorts (altDevices : list IDevice)
  (wizDevices : list (option Device.IWizDevice)) (index : nat)
  (lights : list Device.IWizDevice) (console : list call) :
  (index + length wizDevices <= length altDevices)%nat ->
  exists errors,
    forEach_wizDevice altDevices wizDevices index lights console
    = Completed (lights ++ omap id wizDevices, console ++ errors) /\
    (length (omap id wizDevices) + length errors)%nat = length wizDevices /\
    Forall (fun c => exists deviceInfo,
              deviceInfo ∈ altDevices /\
              c = console_error
                    ("Cannot find wizDevice " ++ ip deviceInfo)%string)
      errors.
Proof.
  revert index lights console.
  induction wizDevices as [|[wizDevice|] wizDevices IH];
    intros index lights console Hlen; cbn [length] in Hlen;
    cbn [forEach_wizDevice].
  - exists []. rewrite !app_nil_r. auto.
  - destruct (IH (S index) (lights ++ [wizDevice]) console ltac:(lia))
      as (errors & -> & Hcount & Hall).
    exists errors. rewrite <- app_assoc.
    change (omap id (Some wizDevice :: wizDevices))
      with (wizDevice :: omap id wizDevices).
    cbn [length app]. auto with lia.
  - destruct (lookup_lt_is_Some_2 altDevices index ltac:(lia))
      as [deviceInfo HdeviceInfo].
    rewrite HdeviceInfo.
    match goal with
    | |- context [forEach_wizDevice _ _ ?i ?l ?c] =>
        destruct (IH i l c ltac:(lia)) as (errors & -> & Hcount & Hall)
    end.
    eexists (_ :: errors). rewrite <- app_assoc.
    change (omap id (None :: wizDevices)) with (omap id wizDevices).
    split; [reflexivity|]. split; [cbn [length]; lia|].
    constructor; [|exact Hall].
    exists deviceInfo. split; [|reflexivity].
    apply list_elem_of_lookup. exists index. exact HdeviceInfo.
Qed.

(** The scan that awaits the candidates one by one and the scan that asks
    them all at once and sorts the outcomes find the same lights, in the
    same order; the one is pending exactly when the other is, and sorting
    never fails. *)
Theorem scans_find_the_same_lights (devices : list IDevice) :
  match await_each devices 0 [] with
  | None => Promise_all (promises devices) = None
  | Some lights =>
      exists wizDevices console,
        Promise_all (promises devices) = Some wizDevices /\
        forEach_wizDevice devices wizDevices 0 [] []
        = Completed (lights, console)
  end.
Proof.
  rewrite await_each_promises.
  destruct (Promise_all (promises devices)) as [wizDevices|] eqn:Hall;
    [|reflexivity].
  pose proof (Promise_all_length _ _ Hall) as Hlen.
  unfold Scan.promises in Hlen. rewrite length_imap in Hlen.
  destruct (forEach_wizDevice_sorts devices wizDevices 0 [] []
              ltac:(simpl; lia)) as (errors & Hsorted & _ & _).
  simpl. exists wizDevices, errors. split; [reflexivity | exact Hsorted].
Qed.

(** The timeout of every call having fired, every promise is resolved. *)
Lemma promises_resolved (devices : list IDevice) :
  (forall i, (i < length devices)%nat -> In Timeout (events i)) ->
  Forall is_Some (promises devices).
Proof.
  intros Hfired. apply Forall_lookup. intros i p Hp.
  unfold Scan.promises in Hp. rewrite list_lookup_imap in Hp.
  destruct (devices !! i) as [device|] eqn:Hdevice; [|discriminate Hp].
  injection Hp as <-.
  destruct (in_split _ _ (Hfired i (lookup_lt_Some _ _ _ Hdevice)))
    as (pre & post & Hsplit).
  unfold Scan.promise. rewrite Hsplit.
  apply (timeout_settles makeWizDevice (ip device) timeout_ms pre post).
Qed.

(** A resolved call holds [null] or a device made for the address it was
    sent to. *)
Lemma resolved_device_made (address : string) (es : list event) st :
  (forall light, resolved st = Some (Some light) ->
     exists deviceInfo, light = makeWizDevice address deviceInfo) ->
  forall light,
    resolved (Discovery.run makeWizDevice address es st) = Some (Some light) ->
    exists deviceInfo, light = makeWizDevice address deviceInfo.
Proof.
  revert st. induction es as [|e es IH]; intros st Hst; [exact Hst|].
  simpl. apply IH. intros light.
  destruct (resolved st) as [w|] eqn:Hw.
  - rewrite (step_resolved_stable makeWizDevice address st e w Hw).
    apply Hst.
  - destruct e as [m|failed| |]; simpl.
    + unfold on_message. destruct (client_open st); simpl;
        [|rewrite Hw; discriminate].
      destruct (JSON_parse m) as [d|];
        [destruct (method d =? "getPilot")%string|];
        rewrite resolve_resolved, Hw; intros [= <-]; eauto.
    + unfold on_send. destruct failed; [|rewrite Hw; discriminate].
      destruct (client_open st); [|simpl; rewrite Hw; discriminate].
      rewrite resolve_resolved. simpl. rewrite Hw. discriminate.
    + unfold on_close_timer.
      destruct (close_timers st); simpl; rewrite Hw; discriminate.
    + unfold on_timeout. destruct (timer st); [|rewrite Hw; discriminate].
      rewrite resolve_resolved. simpl. rewrite Hw. discriminate.
Qed.

(** The lights follow the candidates: their addresses, in order, are
    addresses of candidates, in the candidates' order, whatever the order
    in which the replies arrived. *)
Theorem lights_follow_candidates
  (devices : list IDevice) (lights : list Device.IWizDevice) :
  (forall address deviceInfo,
     Device.ip (makeWizDevice address deviceInfo) = address) ->
  await_each devices 0 [] = Some lights ->
  sublist (map Device.ip lights) (map ip devices).
Proof.
  intros Hip. rewrite await_each_promises.
  unfold Scan.promises.
  assert (H : forall (f : nat -> IDevice -> _) wizDevices,
            (forall j device light,
               f j device = Some (Some light) -> Device.ip light = ip device)
            -> Promise_all (imap f devices) = Some wizDevices ->
            sublist (map Device.ip (omap id wizDevices)) (map ip devices)).
  { clear lights. induction devices as [|device devices IH];
      intros f wizDevices Hf Hall.
    - injection Hall as <-. constructor.
    - unfold Promise_all in *. simpl in Hall.
      destruct (f 0%nat device) as [w|] eqn:Hw; [|discriminate Hall].
      simpl in Hall.
      destruct (mapM id (imap (f ∘ S) devices)) as [ws|] eqn:Hws;
        [|discriminate Hall].
      injection Hall as <-.
      assert (Hrest : sublist (map Device.ip (omap id ws)) (map ip devices)).
      { apply (IH (f ∘ S)); [|exact Hws].
        intros j d l. apply Hf. }
      destruct w as [light|]; simpl.
      + rewrite (Hf _ _ _ Hw). apply sublist_skip, Hrest.
      + apply sublist_cons, Hrest. }
  intros Hlights.
  destruct (Promise_all (imap promise devices)) as [wizDevices|] eqn:Hall;
    [|discriminate Hlights].
  injection Hlights as <-.
  apply (H promise wizDevices); [|exact Hall].
  intros j device light Hlight. unfold Scan.promise in Hlight.
  destruct (resolved_device_made (ip device) (events j)
              (getWizDevice timeout_ms) ltac:(discriminate) light Hlight)
    as (deviceInfo & ->).
  apply Hip.
Qed.

End ScanFacts.

(** * [discoverDevices] *)

Section DiscoverFacts.
Import Pilot Discovery LocalDevices Homebridge Scan.

Variable generate : string -> string.
Variables PLUGIN_NAME PLATFORM_NAME : string.

Local Abbreviation register_device :=
  (Registrar.register_device generate PLUGIN_NAME PLATFORM_NAME).
Local Abbreviation register_lights :=
  (Registrar.register_lights generate PLUGIN_NAME PLATFORM_NAME).

(** The accessory [register_device] makes for a light that is not cached. *)
Local Abbreviation new_accessory := (fun device : Device.IWizDevice =>
  {| displayName :=
       ("WiZ " ++ Registrar.type_name (Device.type device) ++ " "
          ++ Device.mac device)%string;
     UUID := generate (Device.mac device);
     context_device := device |}).

(** The first cached accessory with the light's UUID. *)
Local Abbreviation cached := (fun (accessories : list PlatformAccessory)
                                  (device : Device.IWizDevice) =>
  find (fun accessory =>
          (UUID accessory =? generate (Device.mac device))%string)
    accessories).

Lemma find_elem_of {A : Type} (f : A -> bool) (l : list A) (x : A) :
  find f l = Some x -> x ∈ l.
Proof.
  induction l as [|y l IH]; simpl; [discriminate|].
  destruct (f y).
  - intros [= ->]. left.
  - intros H. right. exact (IH H).
Qed.

(** Every light gets one handler, in the order of the lights.  A light
    whose UUID is cached gets the cached accessory as it is, address
    included, and that accessory is updated; any other light gets a new
    accessory that carries it, and that accessory is registered, a second
    light of the same address no less than the first.  Nothing is ever
    unregistered. *)
Theorem lights_restored_or_registered
  (accessories : list PlatformAccessory)
  (lights : list Device.IWizDevice) :
  let calls := register_lights accessories lights in
  unregistered calls = [] /\
  handlers calls
  = map (fun device => default (new_accessory device)
                         (cached accessories device)) lights /\
  updated calls = omap (cached accessories) lights /\
  registered calls
  = map new_accessory
      (filter (fun device => cached accessories device = None) lights) /\
  Forall (fun accessory => accessory ∈ accessories) (updated calls).
Proof.
  cbv zeta. unfold Registrar.register_lights.
  induction lights as [|device lights (IHu & IHh & IHp & IHr & IHc)].
  - repeat split. constructor.
  - cbn [map concat].
    unfold unregistered, handlers, updated, registered in *.
    rewrite IHp in IHc.
    rewrite !omap_app, !concat_app, IHu, IHh, IHp, IHr.
    unfold Registrar.register_device. cbv zeta.
    destruct (find (fun accessory =>
                      (UUID accessory =? generate (Device.mac device))%string)
                accessories) as [existingAccessory|] eqn:Hfind.
    + rewrite filter_cons_False by (rewrite Hfind; discriminate).
      cbn. rewrite Hfind. repeat split.
      constructor; [|exact IHc].
      exact (find_elem_of _ _ _ Hfind).
    + rewrite filter_cons_True by exact Hfind.
      cbn. rewrite Hfind. repeat split. exact IHc.
Qed.

(** [discoverDevices] over the hard-coded list: it is pending exactly
    while a call is, it never reads past the list of candidates, and when
    it completes every candidate has either given a light or been written
    to the console as not found. *)
Theorem hardcoded_discover_sorts_candidates
  (devices : list IDevice) (events : nat -> list event)
  (accessories : list PlatformAccessory) :
  match HardcodedDiscover.discover generate PLUGIN_NAME PLATFORM_NAME
          devices events accessories with
  | Pending =>
      Promise_all
        (promises HardcodedPlatform.makeWizDevice
           HardcodedPlatform.timeout_ms events devices) = None
  | TypeError => False
  | Completed calls =>
      exists lights console,
        await_each HardcodedPlatform.makeWizDevice
          HardcodedPlatform.timeout_ms events devices 0 [] = Some lights /\
        calls = console ++ log_debug_lights lights
                  :: register_lights accessories lights /\
        (length lights + length console)%nat = length devices /\
        Forall (fun c => exists deviceInfo,
                  deviceInfo ∈ devices /\
                  c = console_error
                        ("Cannot find wizDevice " ++ ip deviceInfo)%string)
          console
  end.
Proof.
  unfold HardcodedDiscover.discover.
  rewrite await_each_promises.
  destruct (Promise_all _) as [wizDevices|] eqn:Hall; [|reflexivity].
  pose proof (Promise_all_length _ _ Hall) as Hlen.
  unfold Scan.promises in Hlen. rewrite length_imap in Hlen.
  destruct (forEach_wizDevice_sorts devices wizDevices 0 [] []
              ltac:(simpl; lia)) as (errors & -> & Hcount & Herrors).
  simpl. exists (omap id wizDevices), errors.
  repeat split; try assumption. lia.
Qed.

(** Once the timeout of every call has fired, the three [discoverDevices]
    complete, however many candidates stayed silent. *)
Theorem discovery_completes_after_timeouts
  (devices : list IDevice) (events : nat -> list event)
  (accessories : list PlatformAccessory) :
  (forall i, (i < length devices)%nat -> In Timeout (events i)) ->
  is_Some (PlatformDiscover.discoverDevices generate PLUGIN_NAME
             PLATFORM_NAME devices events accessories) /\
  is_Some (TestClassDiscover.discoverDevices devices events) /\
  exists calls,
    HardcodedDiscover.discover generate PLUGIN_NAME PLATFORM_NAME
      devices events accessories = Completed calls.
Proof.
  intros Hfired.
  assert (Hall : forall makeWizDevice timeout_ms,
            is_Some (await_each makeWizDevice timeout_ms events devices 0 [])).
  { intros makeWizDevice timeout_ms. rewrite await_each_promises.
    destruct (Promise_all_resolved _
                (promises_resolved makeWizDevice timeout_ms events devices
                   Hfired)) as [wizDevices ->].
    eexists. reflexivity. }
  split; [|split].
  - unfold PlatformDiscover.discoverDevices.
    destruct (Hall Platform.makeWizDevice Platform.timeout_ms) as [l ->].
    eexists. reflexivity.
  - unfold TestClassDiscover.discoverDevices.
    destruct (Hall TestClass.makeWizDevice TestClass.timeout_ms) as [l ->].
    eexists. reflexivity.
  - unfold HardcodedDiscover.discover.
    destruct (Promise_all_resolved _
                (promises_resolved HardcodedPlatform.makeWizDevice
                   HardcodedPlatform.timeout_ms events devices Hfired))
      as [wizDevices Hw].
    rewrite Hw.
    pose proof (Promise_all_length _ _ Hw) as Hlen.
    unfold Scan.promises in Hlen. rewrite length_imap in Hlen.
    destruct (forEach_wizDevice_sorts devices wizDevices 0 [] []
                ltac:(simpl; lia)) as (errors & -> & _ & _).
    eexists. reflexivity.
Qed.

End DiscoverFacts.

(** * The device a reply is made into *)

Section DeviceFacts.
Import JS Pilot Discovery LocalDevices Homebridge Scan.

Lemma makeWizDevice_keeps_address address deviceInfo :
  Device.ip (Platform.makeWizDevice address deviceInfo) = address /\
  Device.ip (TestClass.makeWizDevice address deviceInfo) = address /\
  Device.ip (HardcodedPlatform.makeWizDevice address deviceInfo) = address.
Proof.
  unfold Platform.makeWizDevice, TestClass.makeWizDevice.
  destruct (truthy (dimming (result deviceInfo)));
    destruct (truthy (temp (result deviceInfo))); repeat split.
Qed.

(** The device of [src/platform.ts] and of [TestClass] carries [dimming]
    and [temp] exactly when it is a white light, and then those of the
    reply: the [dimming] an RGB light reports is dropped.  The device of
    the platform over the hard-coded list always carries both, an absent
    [dimming] as 0 and an absent [temp] as 2700, a reported 0 as 0. *)
Theorem makeWizDevice_carries_pilot
  (address : string) (info : IWizPilotResponse) :
  let light := Platform.makeWizDevice address info in
  let fixed := HardcodedPlatform.makeWizDevice address info in
  (Device.type light = Device.WHITE_LIGHT ->
   Device.dimming light = dimming (result info) /\
   Device.temp light = temp (result info)) /\
  (Device.type light <> Device.WHITE_LIGHT ->
   Device.dimming light = None /\ Device.temp light = None) /\
  TestClass.makeWizDevice address info = light /\
  (forall z, dimming (result info) = Some z -> Device.dimming fixed = Some z)
  /\ (forall z, temp (result info) = Some z -> Device.temp fixed = Some z)
  /\ (dimming (result info) = None -> Device.dimming fixed = Some 0)
  /\ (temp (result info) = None -> Device.temp fixed = Some 2700).
Proof.
  cbv zeta.
  unfold Platform.makeWizDevice, TestClass.makeWizDevice,
    HardcodedPlatform.makeWizDevice.
  destruct (truthy (dimming (result info)));
    destruct (truthy (temp (result info))); simpl;
    (split; [intros H; try discriminate H; auto|]);
    (split; [intros H; try congruence; auto|]);
    (split; [reflexivity|]);
    repeat split; intros; match goal with H : _ = _ |- _ => rewrite H end;
    reflexivity.
Qed.

(** A colour bulb at 80 percent: the device is an RGB light without its
    [dimming]; the platform over the hard-coded list keeps the 80 and
    fills in 2700. *)
Lemma makeWizDevice_carries_pilot_witness :
  Device.dimming (Platform.makeWizDevice "192.168.1.144" Samples.colour)
  = None /\
  Device.dimming (Platform.makeWizDevice "192.168.1.144" Samples.white)
  = Some 50 /\
  Device.temp (HardcodedPlatform.makeWizDevice "192.168.1.144" Samples.colour)
  = Some 2700.
Proof.
  destruct (makeWizDevice_carries_pilot "192.168.1.144" Samples.colour)
    as (_ & Hdropped & _ & _ & _ & _ & Hfilled).
  destruct (makeWizDevice_carries_pilot "192.168.1.144" Samples.white)
    as (Hkept & _).
  split; [|split].
  - apply Hdropped. discriminate.
  - apply Hkept. reflexivity.
  - apply Hfilled. reflexivity.
Defined.

(** Two candidates, the first silent, the second answering. *)
Lemma lights_follow_candidates_witness :
  await_each Platform.makeWizDevice Platform.timeout_ms ScanSamples.events
    ScanSamples.candidates 0 []
  = Some [Platform.makeWizDevice "192.168.1.73" Samples.white] /\
  sublist ["192.168.1.73"%string] (map ip ScanSamples.candidates).
Proof.
  split; [reflexivity|].
  exact (lights_follow_candidates Platform.makeWizDevice Platform.timeout_ms
           ScanSamples.events ScanSamples.candidates
           [Platform.makeWizDevice "192.168.1.73" Samples.white]
           (fun address deviceInfo =>
              proj1 (makeWizDevice_keeps_address address deviceInfo))
           eq_refl).
Defined.

(** Thirteen candidates, none answering. *)
Lemma discovery_completes_after_timeouts_witness :
  exists calls,
    HardcodedDiscover.discoverDevices (fun mac => mac)
      "PLUGIN_NAME" "PLATFORM_NAME" ScanSamples.silence []
    = Completed calls.
Proof.
  apply (discovery_completes_after_timeouts (fun mac => mac)
           "PLUGIN_NAME" "PLATFORM_NAME"
           HardcodedDiscover.altDevices ScanSamples.silence []).
  intros i _. right. left. reflexivity.
Defined.

End DeviceFacts.

(** * The accessory without the coalescer *)

Section LegacyFacts.
Import JS Pilot LegacyAccessory.

Lemma legacy_call_requests st e method p cb :
  request_of e = Some (method, p, cb) ->
  trace (step st e) = trace st ++ [Sent (length (sockets st)) method p] /\
  sockets (step st e)
  = sockets st ++ [{| sk_callback := cb; sk_open := true;
                      sk_close_timers := 0 |}].
Proof.
  intros H. destruct e; simpl in H; try discriminate H;
    injection H as <- <- <-; split; reflexivity.
Qed.

Lemma legacy_run_calls (es : list event) (st : accessory) :
  Forall (fun e => is_Some (request_of e)) es ->
  trace (run es st)
  = trace st ++
    imap (fun i r => Sent (length (sockets st) + i) r.1.1 r.1.2)
      (omap request_of es) /\
  sockets (run es st)
  = sockets st ++
    map (fun r => {| sk_callback := r.2; sk_open := true;
                     sk_close_timers := 0 |})
      (omap request_of es).
Proof.
  intros Hes. revert st.
  induction Hes as [|e es [[[method p] cb] Hr] _ IH]; intros st.
  - simpl. rewrite !app_nil_r. split; reflexivity.
  - destruct (legacy_call_requests st e method p cb Hr) as (Ht & Hs).
    destruct (IH (step st e)) as (Ht' & Hs').
    change (run (e :: es) st) with (run es (step st e)).
    rewrite Ht', Hs', Ht, Hs, <- !app_assoc.
    cbn [omap list_omap]. rewrite Hr. rewrite imap_cons. cbn [map].
    split; [|reflexivity].
    f_equal. simpl. rewrite Nat.add_0_r. f_equal.
    apply imap_ext. intros i x _. unfold compose.
    rewrite length_app. simpl. f_equal. lia.
Qed.

Lemma legacy_datagrams_imap (rs : list (string * Light.params * callback))
  (n : nat) :
  datagrams (imap (fun i r => Sent (n + i) r.1.1 r.1.2) rs)
  = imap (fun i r => ((n + i)%nat, r.1.1, r.1.2)) rs.
Proof.
  revert n. induction rs as [|r rs IH]; intros n; [reflexivity|].
  rewrite !imap_cons. unfold datagrams in *. simpl. f_equal.
  rewrite (imap_ext _ (fun i r => Sent (S n + i) r.1.1 r.1.2) rs)
    by (intros; unfold compose; f_equal; lia).
  rewrite (imap_ext (_ ∘ S) (fun i r => ((S n + i)%nat, r.1.1, r.1.2)) rs)
    by (intros; unfold compose; do 2 f_equal; lia).
  apply IH.
Qed.

Lemma legacy_invoke_effects cb response st :
  exists k v,
    trace (invoke cb response st)
    = trace st ++ [Invoked cb response; Delivered k v] /\
    sockets (invoke cb response st) = sockets st.
Proof.
  destruct cb; simpl; eexists _, _; rewrite <- app_assoc;
    split; reflexivity.
Qed.

(** In [src/platformAccessory.ts] nothing is coalesced and replies find
    their caller by the socket they arrive on: every handler call, get or
    set, sends a datagram of its own on a socket of its own, and a reply
    that parses, on the socket of the [j]-th call, applies the callback of
    that call, once, and no other. *)
Theorem legacy_reply_finds_its_caller
  (es : list event) (st : accessory) (j : nat)
  (method : string) (p : Light.params) (cb : callback)
  (message : datagram) (response : IWizPilotResponse) :
  Forall (fun e => is_Some (request_of e)) es ->
  omap request_of es !! j = Some (method, p, cb) ->
  JSON_parse message = Some response ->
  let sent := run es st in
  let answered := on_message (length (sockets st) + j) message sent in
  datagrams (drop (length (trace st)) (trace sent))
  = imap (fun i r => ((length (sockets st) + i)%nat, r.1.1, r.1.2))
      (omap request_of es) /\
  invocations (drop (length (trace sent)) (trace answered))
  = [(cb, response)] /\
  length (deliveries (drop (length (trace sent)) (trace answered))) = 1%nat.
Proof.
  intros Hes Hj Hparse sent answered.
  destruct (legacy_run_calls es st Hes) as (Ht & Hs). fold sent in Ht, Hs.
  split.
  { rewrite Ht, drop_app_length. apply legacy_datagrams_imap. }
  assert (Hsk : sockets sent !! (length (sockets st) + j)%nat
                = Some {| sk_callback := cb; sk_open := true;
                          sk_close_timers := 0 |}).
  { rewrite Hs, lookup_app_r by lia.
    replace (length (sockets st) + j - length (sockets st))%nat with j
      by lia.
    rewrite list_lookup_fmap, Hj. reflexivity. }
  unfold answered, on_message. rewrite Hsk, Hparse. simpl.
  destruct (legacy_invoke_effects cb response sent) as (k & v & Hi & _).
  rewrite Hi, drop_app_length. split; reflexivity.
Qed.

(** Three getters in one burst: three datagrams, and the reply on the
    second socket serves the second getter alone. *)
Lemma legacy_reply_finds_its_caller_witness :
  let sent := run [Call_getOn 1; Call_getBrightness 2; Call_getTemperature 3]
                init in
  datagrams (trace sent)
  = [(0%nat, "getPilot"%string, Light.NoParams);
     (1%nat, "getPilot"%string, Light.NoParams);
     (2%nat, "getPilot"%string, Light.NoParams)] /\
  invocations
    (drop (length (trace sent))
       (trace (on_message 1 (Json Samples.white) sent)))
  = [(getBrightness_cb 2, Samples.white)].
Proof.
  destruct (legacy_reply_finds_its_caller
              [Call_getOn 1; Call_getBrightness 2; Call_getTemperature 3]
              init 1%nat "getPilot" Light.NoParams (getBrightness_cb 2)
              (Json Samples.white) Samples.white
              ltac:(repeat constructor; eexists; reflexivity)
              eq_refl eq_refl) as (Hsent & Hserved & _).
  split; [exact Hsent | exact Hserved].
Defined.

(** A reply without [dimming]: [getBrightness] of
    [src/platformAccessory.ts] stores [undefined] and hands [undefined] to
    HomeKit, where the coalescing accessory hands 0. *)
Theorem legacy_getBrightness_undefined
  (st : accessory) (k : hk) (response : IWizPilotResponse) :
  dimming (result response) = None ->
  let answered :=
    run [Call_getBrightness k; Message (length (sockets st)) (Json response)]
      st in
  deliveries (drop (length (trace st)) (trace answered))
  = [(k, Some VUndefined)] /\
  Brightness (currentState answered) = None /\
  Light.delivery (Light.getBrightness_cb k) response
  = (k, Some (Light.VNum (Num 0))).
Proof.
  intros Habsent answered. unfold answered. simpl.
  unfold getBrightness, on_message, request. simpl.
  rewrite list_lookup_middle by reflexivity. simpl.
  unfold dimming_value, Light.delivery. rewrite Habsent.
  rewrite <- !app_assoc, drop_app_length. repeat split.
Qed.

Lemma legacy_getBrightness_undefined_witness :
  deliveries
    (trace (run [Call_getBrightness 2; Message 0 (Json Samples.plug)] init))
  = [(2%nat, Some VUndefined)].
Proof.
  exact (proj1 (legacy_getBrightness_undefined init 2%nat Samples.plug
                  eq_refl)).
Defined.

End LegacyFacts.
